(** * Admin dashboard: booking assignment, session guard, login and services

    A shallow embedding of the page-level handlers of the dashboard:
    - [BookingDetail]: [handleAssignClick] and [handleAssign] of the booking
      detail page, with the render-time gating of its controls;
    - [Login]: [handleSubmit] of the login page;
    - [Guard]: the [onAuthStateChanged] callback of [DashboardLayout] and its
      render gate;
    - [Services]: [handleSubmit] of the services page.

    The hosted backend (identity provider and document store) is an external
    collaborator: every awaited SDK call is modelled by the value its promise
    settles with, which the environment chooses. *)

From Stdlib Require Import Floats.
From stdpp Require Import gmap strings list fin_maps pretty.

(** ** JavaScript values shared by all pages *)

(** A string is truthy exactly when it is not empty. *)
Definition truthy (s : string) : bool :=
  match s with
  | EmptyString => false
  | String _ _ => true
  end.

(** Truthiness of a value of type [string | null]. *)
Definition truthy_opt (o : option string) : bool :=
  match o with
  | None => false
  | Some s => truthy s
  end.

(** [a || b] on strings. *)
Definition or_else (a b : string) : string := if truthy a then a else b.

(** What a [catch (error: any)] clause reads of the thrown value: its [code]
    and its [message], either of which may be undefined. *)
Record Fault := mkFault { code : option string; message : option string }.

(** [error.code === c] *)
Definition code_is (e : Fault) (c : string) : bool :=
  match code e with
  | Some s => String.eqb s c
  | None => false
  end.

(** A promise either resolves with a value or rejects with a fault. *)
Inductive Settled (A : Type) : Type :=
  | Resolved (a : A)
  | Rejected (e : Fault).
Arguments Resolved {A} a.
Arguments Rejected {A} e.

(** A document snapshot: [exists()] and, when it does, [data()]. *)
Inductive Snapshot (A : Type) : Type :=
  | Exists (data : A)
  | Absent.
Arguments Exists {A} data.
Arguments Absent {A}.

(** ** Firestore documents *)

(** The field values the dashboard reads and writes.  A JavaScript number is
    an IEEE 754 binary64 value. *)
Inductive FieldValue : Type :=
  | VNull
  | VStr (s : string)
  | VBool (b : bool)
  | VNum (x : float)
  | VTimestamp (t : Z)
  | VStrings (l : list string).

(** A document is a finite map from field names to values. *)
Abbreviation Doc := (gmap string FieldValue).

(** [updateDoc(ref, fields)] on a stored document: each field of the payload
    replaces the stored field of that name, every other stored field stays
    (the field names used here contain no dots, so none addresses a nested
    field). *)
Definition updateDoc (stored payload : Doc) : Doc := payload ∪ stored.

(** What a page asks of its collaborators (document store, identity
    provider, router), in the order it asks. *)
Inductive Call : Type :=
  | CallUpdateDoc (collection docId : string) (fields : Doc)
  | CallAddDoc (collection : string) (fields : Doc)
  | CallGetDoc (collection docId : string)
  | CallGetDocs (collection : string)
  | CallSignIn (email password : string)
  | CallSignOut
  | CallRouterPush (path : string).

Definition is_write (c : Call) : bool :=
  match c with
  | CallUpdateDoc _ _ _ | CallAddDoc _ _ => true
  | _ => false
  end.

Definition is_signOut (c : Call) : bool :=
  match c with CallSignOut => true | _ => false end.

Definition is_push (c : Call) : bool :=
  match c with CallRouterPush _ => true | _ => false end.

(** [userData.role === "admin"] on the data of a profile document. *)
Definition role_is_admin (d : Doc) : bool :=
  match d !! "role" with
  | Some (VStr r) => String.eqb r "admin"
  | _ => false
  end.

(** The write calls among [cs]. *)
Definition writes (cs : list Call) : list Call := List.filter is_write cs.

(** An authorization fault: the profile document is missing, or its role
    attribute is not ["admin"]. *)
Definition denied (snap : Snapshot Doc) : bool :=
  match snap with
  | Absent => true
  | Exists d => negb (role_is_admin d)
  end.

(** ** Booking detail page *)

Module BookingDetail.

Inductive Status : Type := pending | assigned | completed | cancelled.

Record BookingData := mkBookingData {
  serviceId : string;
  technicianId : option string;
  status : Status;
  customerName : string;
  customerPhone : string;
  customerAddress : string;
  createdAt : Z;
  scheduledAt : Z;
  notes : option string
}.

Record TechnicianData := mkTechnicianData {
  name : string;
  phone : string;
  email : string;
  skills : list string
}.

(** A row of the selector; [tname] and [tskills] are its [name] and [skills]
    (the names are taken by [TechnicianData]). *)
Record ActiveTechnician := mkActiveTechnician {
  id : string;
  tname : string;
  tskills : list string
}.

Inductive MessageType : Type := success | failure.

Record Message := mkMessage { type : MessageType; text : string }.

(** The state variables of [BookingDetailPage] that its assignment handlers
    and the gating of its controls read or write, with the [bookingId] route
    parameter.  ([service] is display-only and left out.) *)
Record Page := mkPage {
  bookingId : string;
  booking : option BookingData;
  technician : option TechnicianData;
  activeTechnicians : list ActiveTechnician;
  selectedTechnicianId : string;
  loading : bool;
  error : option string;
  isAssigning : bool;
  assignmentMessage : option Message;
  showConfirmDialog : bool
}.

Definition setBooking (v : option BookingData) (p : Page) : Page :=
  mkPage (bookingId p) v (technician p) (activeTechnicians p)
    (selectedTechnicianId p) (loading p) (error p) (isAssigning p)
    (assignmentMessage p) (showConfirmDialog p).

Definition setTechnician (v : option TechnicianData) (p : Page) : Page :=
  mkPage (bookingId p) (booking p) v (activeTechnicians p)
    (selectedTechnicianId p) (loading p) (error p) (isAssigning p)
    (assignmentMessage p) (showConfirmDialog p).

Definition setSelectedTechnicianId (v : string) (p : Page) : Page :=
  mkPage (bookingId p) (booking p) (technician p) (activeTechnicians p)
    v (loading p) (error p) (isAssigning p)
    (assignmentMessage p) (showConfirmDialog p).

Definition setIsAssigning (v : bool) (p : Page) : Page :=
  mkPage (bookingId p) (booking p) (technician p) (activeTechnicians p)
    (selectedTechnicianId p) (loading p) (error p) v
    (assignmentMessage p) (showConfirmDialog p).

Definition setAssignmentMessage (v : option Message) (p : Page) : Page :=
  mkPage (bookingId p) (booking p) (technician p) (activeTechnicians p)
    (selectedTechnicianId p) (loading p) (error p) (isAssigning p)
    v (showConfirmDialog p).

Definition setShowConfirmDialog (v : bool) (p : Page) : Page :=
  mkPage (bookingId p) (booking p) (technician p) (activeTechnicians p)
    (selectedTechnicianId p) (loading p) (error p) (isAssigning p)
    (assignmentMessage p) v.

(** [{ ...booking, technicianId: t, status: s }] *)
Definition spread (b : BookingData) (t : option string) (s : Status) : BookingData :=
  mkBookingData (serviceId b) t s (customerName b) (customerPhone b)
    (customerAddress b) (createdAt b) (scheduledAt b) (notes b).

(** [activeTechnicians.find((t) => t.id === sel)] *)
Definition find_technician (l : list ActiveTechnician) (sel : string) : option ActiveTechnician :=
  List.find (fun t => String.eqb (id t) sel) l.

(** The object literal handed to [updateDoc]:
    [{ technicianId: selectedTechnicianId, status: "assigned" }]. *)
Definition assignment_fields (sel : string) : Doc :=
  <["technicianId" := VStr sel]> (<["status" := VStr "assigned"]> ∅).

(** The page with what it has asked of the backend and of the clock.
    - [calls]: SDK calls issued so far, oldest first;
    - [inflight]: activations of [handleAssign] suspended at an [await], each
      holding the render ([Page]) whose state values its closure captured;
    - [timers]: delays (ms) of the [setTimeout] callbacks not yet run. *)
Inductive Suspended : Type :=
  | AwaitUpdateDoc (closure : Page)
  | AwaitGetDoc (closure : Page).

Record World := mkWorld {
  page : Page;
  calls : list Call;
  inflight : list Suspended;
  timers : list nat
}.

Definition on_page (f : Page → Page) (w : World) : World :=
  mkWorld (f (page w)) (calls w) (inflight w) (timers w).

(** [handleAssignClick] *)
Definition handleAssignClick (p : Page) : Page :=
  match booking p with
  | None => p
  | Some b =>
      if negb (truthy (selectedTechnicianId p)) || truthy_opt (technicianId b) || isAssigning p
      then p
      else setShowConfirmDialog true p
  end.

(** [handleAssign], from its entry to the first [await]: the guard, the three
    state resets, the optimistic update and the [updateDoc] call. *)
Definition handleAssign (w : World) : World :=
  let r := page w in
  match booking r with
  | None => w
  | Some b =>
      if negb (truthy (selectedTechnicianId r)) || truthy_opt (technicianId b)
      then w
      else
        let p1 := setShowConfirmDialog false
                    (setAssignmentMessage None (setIsAssigning true r)) in
        let p2 := setBooking
                    (Some (spread b (Some (selectedTechnicianId r)) assigned)) p1 in
        mkWorld p2
          (calls w ++ [CallUpdateDoc "bookings" (bookingId r)
                         (assignment_fields (selectedTechnicianId r))])
          (inflight w ++ [AwaitUpdateDoc r])
          (timers w)
  end.

(** The user-facing text of a failed assignment. *)
Definition assign_error_message (e : Fault) : string :=
  if code_is e "permission-denied" then
    "Permission denied. Please check your access rights."
  else if code_is e "unavailable" then
    "Service temporarily unavailable. Please try again later."
  else if truthy_opt (message e) then "Error: " +:+ default "" (message e)
  else "Failed to assign technician. Please try again.".

(** The [catch] block followed by [finally], run in the activation whose
    closure is [r]. *)
Definition assign_catch (r : Page) (e : Fault) (p : Page) (ts : list nat) : Page * list nat :=
  let p1 := match booking r with
            | Some b => setBooking (Some (spread b None (status b))) p
            | None => p
            end in
  let p2 := setTechnician None p1 in
  let p3 := setAssignmentMessage
              (Some (mkMessage failure (assign_error_message e))) p2 in
  (setIsAssigning false p3, ts ++ [5000%nat]).

(** The text of the success message. *)
Definition assign_success_message (r : Page) : string :=
  "Technician "
  +:+ or_else (match find_technician (activeTechnicians r) (selectedTechnicianId r) with
              | Some t => tname t
              | None => ""
              end) ""
  +:+ " assigned successfully.".

(** The rest of the [try] block after [getDoc] resolved with [snap],
    followed by [finally]. *)
Definition assign_finish (r : Page) (snap : Snapshot TechnicianData) (p : Page) (ts : list nat)
  : Page * list nat :=
  let p1 := match snap with
            | Exists d => setTechnician (Some d) p
            | Absent => p
            end in
  let p2 := setSelectedTechnicianId "" p1 in
  let p3 := setAssignmentMessage
              (Some (mkMessage success (assign_success_message r))) p2 in
  (setIsAssigning false p3, ts ++ [3000%nat]).

(** *** What the page renders, and which controls can fire *)

(** The two early returns of the component: the skeleton while [loading], the
    error card when [error || !booking]; otherwise the main view. *)
Definition main_view (p : Page) : bool :=
  negb (loading p) && negb (truthy_opt (error p))
  && match booking p with Some _ => true | None => false end.

(** The "Assign Technician" card is rendered under [!booking.technicianId]. *)
Definition assign_section (p : Page) : bool :=
  main_view p
  && match booking p with
     | Some b => negb (truthy_opt (technicianId b))
     | None => false
     end.

(** The values the [select] offers: the placeholder and one option per
    active technician. *)
Definition option_offered (p : Page) (v : string) : bool :=
  negb (truthy v) || existsb (fun t => String.eqb (id t) v) (activeTechnicians p).

(** Everything that can run a piece of the page's code: the user's actions,
    a timer running out, and the settling of an awaited promise of the [i]-th
    suspended activation. *)
Inductive Event : Type :=
  | ChangeSelect (value : string)
  | ClickAssign
  | ClickConfirm
  | ClickCancel
  | ClickBackdrop
  | TimerFires (i : nat)
  | UpdateDocSettles (i : nat) (r : Settled unit)
  | GetDocSettles (i : nat) (r : Settled (Snapshot TechnicianData)).

(** A control fires only while it is rendered and not [disabled]:
    - the select: in the assign card, [disabled={isAssigning}];
    - the Assign button: in the assign card,
      [disabled={!selectedTechnicianId || isAssigning}];
    - the dialog (under [showConfirmDialog]): its Cancel and Confirm buttons
      have [disabled={isAssigning}], its backdrop is a plain [div]. *)
Definition enabled (e : Event) (p : Page) : bool :=
  match e with
  | ChangeSelect v =>
      assign_section p && negb (isAssigning p) && option_offered p v
  | ClickAssign =>
      assign_section p
      && negb (negb (truthy (selectedTechnicianId p)) || isAssigning p)
  | ClickConfirm | ClickCancel =>
      main_view p && showConfirmDialog p && negb (isAssigning p)
  | ClickBackdrop => main_view p && showConfirmDialog p
  | TimerFires _ | UpdateDocSettles _ _ | GetDocSettles _ _ => true
  end.

(** [onClick={() => !isAssigning && setShowConfirmDialog(false)}] *)
Definition backdrop_click (p : Page) : Page :=
  if negb (isAssigning p) then setShowConfirmDialog false p else p.

(** The [updateDoc] promise of activation [i] settles: on success the
    activation goes on to call [getDoc] and suspends again; on a fault it runs
    [catch] and [finally] and ends. *)
Definition settle_updateDoc (i : nat) (r : Settled unit) (w : World) : World :=
  match inflight w !! i with
  | Some (AwaitUpdateDoc c) =>
      match r with
      | Resolved _ =>
          mkWorld (page w)
            (calls w ++ [CallGetDoc "technicians" (selectedTechnicianId c)])
            (<[i := AwaitGetDoc c]> (inflight w))
            (timers w)
      | Rejected e =>
          let '(p, ts) := assign_catch c e (page w) (timers w) in
          mkWorld p (calls w) (delete i (inflight w)) ts
      end
  | _ => w
  end.

(** The [getDoc] promise of activation [i] settles; either way the activation
    ends. *)
Definition settle_getDoc (i : nat) (r : Settled (Snapshot TechnicianData)) (w : World) : World :=
  match inflight w !! i with
  | Some (AwaitGetDoc c) =>
      let '(p, ts) :=
        match r with
        | Resolved snap => assign_finish c snap (page w) (timers w)
        | Rejected e => assign_catch c e (page w) (timers w)
        end in
      mkWorld p (calls w) (delete i (inflight w)) ts
  | _ => w
  end.

(** A [setTimeout] callback runs: [setAssignmentMessage(null)]. *)
Definition timer_fires (i : nat) (w : World) : World :=
  match timers w !! i with
  | Some _ =>
      mkWorld (setAssignmentMessage None (page w)) (calls w) (inflight w)
        (delete i (timers w))
  | None => w
  end.

(** One event.  Each handler reads the state committed by all earlier events:
    React commits the updates of an event before the next one is delivered. *)
Definition dispatch (e : Event) (w : World) : World :=
  if enabled e (page w) then
    match e with
    | ChangeSelect v => on_page (setSelectedTechnicianId v) w
    | ClickAssign => on_page handleAssignClick w
    | ClickConfirm => handleAssign w
    | ClickCancel => on_page (setShowConfirmDialog false) w
    | ClickBackdrop => on_page backdrop_click w
    | TimerFires i => timer_fires i w
    | UpdateDocSettles i r => settle_updateDoc i r w
    | GetDocSettles i r => settle_getDoc i r w
    end
  else w.

Definition run (evs : list Event) (w : World) : World :=
  fold_left (fun w e => dispatch e w) evs w.

(** The page once [fetchBookingDetails] has completed without a fault:
    booking [b] of route parameter [bid], the technician detail [t] it found
    (if any) and the directory [techs] of active technicians. *)
Definition loaded (bid : string) (b : BookingData) (t : option TechnicianData)
    (techs : list ActiveTechnician) : World :=
  mkWorld (mkPage bid (Some b) t techs "" false None false None false) [] [] [].

(** No promise settles in [e]: the backend has not answered yet. *)
Definition no_answer (e : Event) : bool :=
  match e with
  | UpdateDocSettles _ _ | GetDocSettles _ _ => false
  | _ => true
  end.

(** *** A sample booking *)

Definition booking1 : BookingData :=
  mkBookingData "svc-1" None pending "Asha" "98100" "12 Lake Road" 1700 1800 None.

Definition tech1 : ActiveTechnician := mkActiveTechnician "t1" "Ravi" ["wiring"].
Definition tech2 : ActiveTechnician := mkActiveTechnician "t2" "Meera" ["plumbing"].

Definition tech1_record : TechnicianData :=
  mkTechnicianData "Ravi" "99000" "ravi@example.com" ["wiring"].

Definition world1 : World := loaded "bk-1" booking1 None [tech1; tech2].

Definition unavailable : Fault := mkFault (Some "unavailable") (Some "offline").
Definition forbidden : Fault := mkFault (Some "permission-denied") None.

(** *** Notions used to state the properties *)

(** Either guard of the two handlers fails: nothing is selected, or the
    booking already carries a technician id. *)
Definition declined (p : Page) : Prop :=
  selectedTechnicianId p = ""
  ∨ ∃ b t, booking p = Some b ∧ technicianId b = Some t ∧ t ≠ "".

(** What an event leaves alone while the flag is up. *)
Definition same_backend (w w' : World) : Prop :=
  calls w' = calls w ∧ inflight w' = inflight w.

(** The flag is up exactly while one activation is suspended, and there is
    never more than one. *)
Definition single_flight (w : World) : Prop :=
  if isAssigning (page w) then length (inflight w) = 1 else inflight w = [].

(** The Confirm button can fire and both guards of [handleAssign] pass: the
    dialog is open, a technician is staged and the booking [b] has no
    technician. *)
Definition confirmable (w : World) (b : BookingData) : Prop :=
  enabled ClickConfirm (page w) = true
  ∧ booking (page w) = Some b
  ∧ technicianId b = None
  ∧ selectedTechnicianId (page w) ≠ "".

(** The states the page can be in after a booking was loaded. *)
Inductive reachable : World → Prop :=
  | reach_loaded bid b t techs : reachable (loaded bid b t techs)
  | reach_step e w : reachable w → reachable (dispatch e w).

Definition is_ClickAssign (e : Event) : bool :=
  match e with ClickAssign => true | _ => false end.

Definition is_ClickConfirm (e : Event) : bool :=
  match e with ClickConfirm => true | _ => false end.

(** How often an event satisfying [f] occurs in [evs]. *)
Definition occurrences (f : Event → bool) (evs : list Event) : nat :=
  length (List.filter f evs).

(** One write is owed to each dialog that is open. *)
Definition open_dialogs (w : World) : nat :=
  if showConfirmDialog (page w) then 1 else 0.

End BookingDetail.

(** ** Login page *)

Module Login.

Record State := mkState {
  email : string;
  password : string;
  loading : bool;
  error : option string
}.

Definition setError (v : option string) (s : State) : State :=
  mkState (email s) (password s) (loading s) v.

Definition setLoading (v : bool) (s : State) : State :=
  mkState (email s) (password s) v (error s).

(** What the three awaited calls of [handleSubmit] settle with:
    [signInWithEmailAndPassword] (with [user.uid]), [getDoc] of the profile,
    and [signOut]. *)
Record Env := mkEnv {
  signIn : Settled string;
  userDoc : Settled (Snapshot Doc);
  signOut : Settled unit
}.

(** The message chosen by the [catch] block. *)
Definition error_message (e : Fault) : string :=
  if code_is e "auth/user-not-found" then
    "No account found with this email address."
  else if code_is e "auth/wrong-password" then
    "Incorrect password. Please try again."
  else if code_is e "auth/invalid-email" then "Invalid email address."
  else if code_is e "auth/user-disabled" then "This account has been disabled."
  else if code_is e "auth/too-many-requests" then
    "Too many failed attempts. Please try again later."
  else if truthy_opt (message e) then default "" (message e)
  else "Failed to sign in. Please try again.".

(** [catch]: [setError(errorMessage)]. *)
Definition catch (e : Fault) (s : State) : State :=
  setError (Some (error_message e)) s.

(** [await signOut(auth); setError(msg); return;] inside the [try]. *)
Definition deny (env : Env) (msg : string) (s : State) : State :=
  match signOut env with
  | Resolved _ => setError (Some msg) s
  | Rejected e => catch e s
  end.

(** [handleSubmit]: the final state and the calls issued. *)
Definition handleSubmit (env : Env) (s : State) : State * list Call :=
  let s0 := setError None s in
  if negb (truthy (email s)) || negb (truthy (password s)) then
    (setError (Some "Please enter both email and password") s0, [])
  else
    let s1 := setLoading true s0 in
    let c1 := [CallSignIn (email s) (password s)] in
    let '(s2, cs) :=
      match signIn env with
      | Rejected e => (catch e s1, c1)
      | Resolved uid =>
          let c2 := c1 ++ [CallGetDoc "users" uid] in
          match userDoc env with
          | Rejected e => (catch e s1, c2)
          | Resolved Absent =>
              (deny env "Access denied. User account not found." s1,
               c2 ++ [CallSignOut])
          | Resolved (Exists userData) =>
              if negb (role_is_admin userData) then
                (deny env "Access denied. Admin privileges required." s1,
                 c2 ++ [CallSignOut])
              else (s1, c2 ++ [CallRouterPush "/dashboard"])
          end
      end in
    (setLoading false s2, cs).

Definition filled : State := mkState "ops@example.com" "secret" false None.

Definition admin_profile : Doc := <["role" := VStr "admin"]> ∅.
Definition staff_profile : Doc := <["role" := VStr "staff"]> ∅.

(** The fault code is one of the five the [catch] block maps. *)
Definition mapped (e : Fault) : bool :=
  code_is e "auth/user-not-found" || code_is e "auth/wrong-password"
  || code_is e "auth/invalid-email" || code_is e "auth/user-disabled"
  || code_is e "auth/too-many-requests".

Definition generic_message : string := "Failed to sign in. Please try again.".

(** The access-denied text of the login page for an authorization fault. *)
Definition denial_message (snap : Snapshot Doc) : string :=
  match snap with
  | Absent => "Access denied. User account not found."
  | Exists _ => "Access denied. Admin privileges required."
  end.

Definition network_fault : Fault :=
  mkFault (Some "auth/network-request-failed")
    (Some "Firebase: Error (auth/network-request-failed).").

Definition unreachable : Env :=
  mkEnv (Rejected network_fault) (Resolved Absent) (Resolved tt).

Definition stranger : Env :=
  mkEnv (Resolved "u7") (Resolved Absent) (Resolved tt).

End Login.

(** ** Role-gated session guard ([DashboardLayout]) *)

Module Guard.

(** The state variables the auth callback and the render gate use
    ([sidebarOpen] and [isLoggingOut] belong to the sidebar). *)
Record State := mkState {
  loading : bool;
  isAuthorized : bool;
  authChecked : bool
}.

Definition setLoading (v : bool) (s : State) : State :=
  mkState v (isAuthorized s) (authChecked s).

Definition setIsAuthorized (v : bool) (s : State) : State :=
  mkState (loading s) v (authChecked s).

Definition setAuthChecked (v : bool) (s : State) : State :=
  mkState (loading s) (isAuthorized s) v.

(** The mounted layout: its state, the [isMounted] variable of the effect,
    the calls issued, and the callbacks suspended at [await getDoc], each with
    the [uid] it asked for. *)
Record World := mkWorld {
  state : State;
  isMounted : bool;
  calls : list Call;
  pending : list string
}.

Inductive Event : Type :=
  | AuthStateChanged (user : option string)
  | UserDocSettles (i : nat) (r : Settled (Snapshot Doc))
  | Unmount.

(** [setAuthChecked(true); setLoading(false); router.push("/login")] under
    [if (isMounted)]. *)
Definition redirect (w : World) (pend : list string) : World :=
  if isMounted w then
    mkWorld (setLoading false (setAuthChecked true (state w))) true
      (calls w ++ [CallRouterPush "/login"]) pend
  else mkWorld (state w) (isMounted w) (calls w) pend.

(** The callback from its entry to [await getDoc]. *)
Definition on_auth (user : option string) (w : World) : World :=
  if negb (isMounted w) then w
  else
    let w1 := mkWorld (setAuthChecked false (setLoading true (state w)))
                (isMounted w) (calls w) (pending w) in
    match user with
    | None => redirect w1 (pending w1)
    | Some uid =>
        mkWorld (state w1) (isMounted w1)
          (calls w1 ++ [CallGetDoc "users" uid]) (pending w1 ++ [uid])
    end.

(** The callback after [getDoc] of its [i]-th suspended run settled. *)
Definition on_userDoc (i : nat) (r : Settled (Snapshot Doc)) (w : World) : World :=
  match pending w !! i with
  | None => w
  | Some _ =>
      let rest := delete i (pending w) in
      match r with
      | Rejected _ => redirect w rest
      | Resolved snap =>
          if negb (isMounted w) then
            mkWorld (state w) (isMounted w) (calls w) rest
          else
            match snap with
            | Absent => redirect w rest
            | Exists userData =>
                if negb (role_is_admin userData) then redirect w rest
                else
                  mkWorld
                    (setLoading false
                       (setAuthChecked true (setIsAuthorized true (state w))))
                    (isMounted w) (calls w) rest
            end
      end
  end.

(** The effect's cleanup: [isMounted = false; unsubscribe()]. *)
Definition unmount (w : World) : World :=
  mkWorld (state w) false (calls w) (pending w).

Definition dispatch (e : Event) (w : World) : World :=
  match e with
  | AuthStateChanged user => on_auth user w
  | UserDocSettles i r => on_userDoc i r w
  | Unmount => unmount w
  end.

Definition run (evs : list Event) (w : World) : World :=
  fold_left (fun w e => dispatch e w) evs w.

(** The layout as first rendered, with the effect subscribed. *)
Definition mounted : World := mkWorld (mkState true false false) true [] [].

Inductive View : Type := LoadingScreen | Content.

(** [if (loading || !authChecked || !isAuthorized)] the spinner, else the
    sidebar and [children]. *)
Definition render (s : State) : View :=
  if loading s || negb (authChecked s) || negb (isAuthorized s)
  then LoadingScreen else Content.

(** The outcome of a profile fetch lets the callback authorize. *)
Definition grants (r : Settled (Snapshot Doc)) : bool :=
  match r with
  | Resolved (Exists d) => role_is_admin d
  | _ => false
  end.

(** No event of the run carries a granting profile. *)
Definition faulty (e : Event) : bool :=
  match e with
  | UserDocSettles _ r => negb (grants r)
  | _ => true
  end.

Definition offline : Fault := mkFault (Some "unavailable") (Some "client is offline").

(** A guard waiting for the profile of user [u7]. *)
Definition checking : World := run [AuthStateChanged (Some "u7")] mounted.

End Guard.

(** ** Services page *)

Module Services.

Record Service := mkService {
  id : string;
  title : string;
  category : string;
  price : float;
  duration : float;
  isActive : bool
}.

Inductive ToastType : Type := success | failure.

Record Toast := mkToast { toast_id : string; toast_message : string; toast_type : ToastType }.

(** The form's [title], [category], [price] and [duration] inputs. *)
Record FormData := mkFormData {
  form_title : string;
  form_category : string;
  form_price : string;
  form_duration : string
}.

(** The state variables [handleSubmit] and the functions it calls use
    ([confirmDialog] belongs to the enable/disable toggle). *)
Record State := mkState {
  services : list Service;
  loading : bool;
  isModalOpen : bool;
  isSubmitting : bool;
  editingServiceId : option string;
  error : option string;
  toasts : list Toast;
  formData : FormData
}.

Definition setServices (v : list Service) (s : State) : State :=
  mkState v (loading s) (isModalOpen s) (isSubmitting s) (editingServiceId s)
    (error s) (toasts s) (formData s).

Definition setLoading (v : bool) (s : State) : State :=
  mkState (services s) v (isModalOpen s) (isSubmitting s) (editingServiceId s)
    (error s) (toasts s) (formData s).

Definition setIsModalOpen (v : bool) (s : State) : State :=
  mkState (services s) (loading s) v (isSubmitting s) (editingServiceId s)
    (error s) (toasts s) (formData s).

Definition setIsSubmitting (v : bool) (s : State) : State :=
  mkState (services s) (loading s) (isModalOpen s) v (editingServiceId s)
    (error s) (toasts s) (formData s).

Definition setEditingServiceId (v : option string) (s : State) : State :=
  mkState (services s) (loading s) (isModalOpen s) (isSubmitting s) v
    (error s) (toasts s) (formData s).

Definition setError (v : option string) (s : State) : State :=
  mkState (services s) (loading s) (isModalOpen s) (isSubmitting s)
    (editingServiceId s) v (toasts s) (formData s).

Definition setToasts (v : list Toast) (s : State) : State :=
  mkState (services s) (loading s) (isModalOpen s) (isSubmitting s)
    (editingServiceId s) (error s) v (formData s).

Definition setFormData (v : FormData) (s : State) : State :=
  mkState (services s) (loading s) (isModalOpen s) (isSubmitting s)
    (editingServiceId s) (error s) (toasts s) v.

(** The page with the calls it issued and the [setTimeout] callbacks it
    scheduled (delay in ms, toast to remove). *)
Record World := mkWorld {
  state : State;
  calls : list Call;
  timers : list (nat * string)
}.

Definition on_state (f : State → State) (w : World) : World :=
  mkWorld (f (state w)) (calls w) (timers w).

Definition issue (c : Call) (w : World) : World :=
  mkWorld (state w) (calls w ++ [c]) (timers w).

(** What the environment answers during one [handleSubmit]: the clock
    ([Date.now()], [Timestamp.now()]), the awaited write ([updateDoc] or
    [addDoc]) and the [getDocs] of [fetchServices], whose rows are given as
    the mapping inside [fetchServices] types them. *)
Record Env := mkEnv {
  date_now : Z;
  timestamp_now : Z;
  write : Settled unit;
  refetch : Settled (list Service)
}.

(** [showToast(message, type)] *)
Definition showToast (env : Env) (msg : string) (ty : ToastType) (w : World) : World :=
  let i := pretty (date_now env) in
  mkWorld (setToasts (toasts (state w) ++ [mkToast i msg ty]) (state w))
    (calls w) (timers w ++ [(3000%nat, i)]).

(** [fetchServices()]: it catches its own faults. *)
Definition fetchServices (env : Env) (w : World) : World :=
  let w1 := issue (CallGetDocs "services") (on_state (setLoading true) w) in
  let w2 := match refetch env with
            | Resolved rows => on_state (setServices rows) w1
            | Rejected _ => w1
            end in
  on_state (setLoading false) w2.

(** [handleCloseModal()] *)
Definition handleCloseModal (s : State) : State :=
  setFormData (mkFormData "" "" "" "")
    (setError None (setEditingServiceId None (setIsModalOpen false s))).

Section Builtins.

(** [String.prototype.trim], [parseFloat] and [parseInt] of the JavaScript
    runtime. *)
Variable trim : string → string.
Variables parseFloat parseInt : string → float.

(** The [serviceData] object literal. *)
Definition serviceData (f : FormData) : Doc :=
  <["title" := VStr (trim (form_title f))]>
    (<["category" := VStr (or_else (trim (form_category f)) "")]>
       (<["price" := VNum (parseFloat (form_price f))]>
          (<["duration" := VNum (parseInt (form_duration f))]> ∅))).

(** [{ ...service, ...serviceData }] on a row of the local table. *)
Definition merge_row (f : FormData) (sv : Service) : Service :=
  mkService (id sv) (trim (form_title f)) (or_else (trim (form_category f)) "")
    (parseFloat (form_price f)) (parseInt (form_duration f)) (isActive sv).

(** [{ ...serviceData, isActive: true, createdAt: Timestamp.now() }] *)
Definition new_service (env : Env) (f : FormData) : Doc :=
  <["createdAt" := VTimestamp (timestamp_now env)]>
    (<["isActive" := VBool true]> (serviceData f)).

(** The three validations; [None] when the form passes. *)
Definition validate (f : FormData) : option string :=
  if negb (truthy (trim (form_title f))) then Some "Service title is required"
  else if negb (truthy (form_price f)) || PrimFloat.leb (parseFloat (form_price f)) 0
  then Some "Price must be greater than 0"
  else if negb (truthy (form_duration f)) || PrimFloat.leb (parseInt (form_duration f)) 0
  then Some "Duration must be greater than 0"
  else None.

(** [catch] of [handleSubmit], for the [editingServiceId] its closure holds. *)
Definition submit_catch (env : Env) (editing : option string) (w : World) : World :=
  if truthy_opt editing then
    fetchServices env
      (on_state (setError (Some "Failed to update service. Please try again.")) w)
  else on_state (setError (Some "Failed to create service. Please try again.")) w.

(** The branch under [if (editingServiceId)]: optimistic update of the local
    table, then [updateDoc(serviceRef, serviceData)]. *)
Definition submit_edit (env : Env) (f : FormData) (sid : string) (w : World) : World :=
  let w1 := on_state (fun s =>
              setServices
                (List.map (fun sv => if String.eqb (id sv) sid
                                     then merge_row f sv else sv)
                   (services s)) s) w in
  let w2 := issue (CallUpdateDoc "services" sid (serviceData f)) w1 in
  match write env with
  | Resolved _ =>
      on_state handleCloseModal
        (showToast env "Service updated successfully" success w2)
  | Rejected _ => submit_catch env (Some sid) w2
  end.

(** The [else] branch: [addDoc], then [fetchServices]. *)
Definition submit_create (env : Env) (f : FormData) (editing : option string) (w : World) : World :=
  let w1 := issue (CallAddDoc "services" (new_service env f)) w in
  match write env with
  | Resolved _ =>
      on_state handleCloseModal
        (showToast env "Service added successfully" success (fetchServices env w1))
  | Rejected _ => submit_catch env editing w1
  end.

(** [handleSubmit]; [formData] and [editingServiceId] are those of the render
    the form was submitted in. *)
Definition handleSubmit (env : Env) (w : World) : World :=
  let f := formData (state w) in
  let editing := editingServiceId (state w) in
  let w0 := on_state (setError None) w in
  match validate f with
  | Some msg => on_state (setError (Some msg)) w0
  | None =>
      let w1 := on_state (setIsSubmitting true) w0 in
      let w2 :=
        match editing with
        | Some sid =>
            if truthy sid then submit_edit env f sid w1
            else submit_create env f editing w1
        | None => submit_create env f editing w1
        end in
      on_state (setIsSubmitting false) w2
  end.

End Builtins.

(** A stored service document that has been disabled. *)
Definition stored_disabled : Doc :=
  <["title" := VStr "Fan repair"]>
    (<["category" := VStr "Electrical"]>
       (<["price" := VNum 300%float]>
          (<["duration" := VNum 45%float]>
             (<["isActive" := VBool false]>
                (<["createdAt" := VTimestamp 1700]> ∅))))).

Definition editing_world : World :=
  mkWorld
    (mkState [mkService "s1" "Fan repair" "Electrical" 300%float 45%float false]
       false true false (Some "s1") None []
       (mkFormData "Fan service" "Electrical" "350" "60"))
    [] [].

Definition calm : Env := mkEnv 1000 2000 (Resolved tt) (Resolved []).

End Services.

(** ** Booking detail page: notions for whole histories *)

Module BookingHistory.
Import BookingDetail.

(** What every state of a history from [loaded bid _ _ techs] keeps: the route
    parameter, the directory, a selection the select offers, and writes that
    all target this booking with an offered technician. *)
Definition offered_only (bid : string) (techs : list ActiveTechnician) (w : World) : Prop :=
  bookingId (page w) = bid
  ∧ activeTechnicians (page w) = techs
  ∧ option_offered (page w) (selectedTechnicianId (page w)) = true
  ∧ Forall (λ c, ∃ tech, tech ∈ techs ∧ id tech ≠ ""
                   ∧ c = CallUpdateDoc "bookings" bid (assignment_fields (id tech)))
      (writes (calls w)).

End BookingHistory.

(** ** Booking detail page: loading ([fetchBookingDetails]) *)

Module BookingLoad.
Import BookingDetail.

(** [ServiceData], as the page's interface declares it. *)
Record ServiceData := mkServiceData {
  svc_title : option string;
  svc_name : option string;
  svc_category : option string;
  svc_price : float;
  svc_duration : float
}.

(** [data()] of a document of the technician directory, read under the types
    the page's interfaces declare: [name] a string and [skills] an array of
    strings, either of which may be missing. *)
Record DirectoryRow := mkDirectoryRow {
  row_id : string;
  row_name : option string;
  row_skills : option (list string)
}.

(** [{ id: doc.id, name: data.name || "", skills: data.skills || [] }] (an
    array, even an empty one, is truthy). *)
Definition to_active (r : DirectoryRow) : ActiveTechnician :=
  mkActiveTechnician (row_id r)
    (or_else (default "" (row_name r)) "")
    (default [] (row_skills r)).

(** The page with its display-only [service] and the reads it has issued. *)
Record Detail := mkDetail {
  view : Page;
  service : option ServiceData;
  reads : list Call
}.

Definition setLoading (v : bool) (p : Page) : Page :=
  mkPage (bookingId p) (booking p) (technician p) (activeTechnicians p)
    (selectedTechnicianId p) v (error p) (isAssigning p)
    (assignmentMessage p) (showConfirmDialog p).

Definition setError (v : option string) (p : Page) : Page :=
  mkPage (bookingId p) (booking p) (technician p) (activeTechnicians p)
    (selectedTechnicianId p) (loading p) v (isAssigning p)
    (assignmentMessage p) (showConfirmDialog p).

Definition setActiveTechnicians (v : list ActiveTechnician) (p : Page) : Page :=
  mkPage (bookingId p) (booking p) (technician p) v
    (selectedTechnicianId p) (loading p) (error p) (isAssigning p)
    (assignmentMessage p) (showConfirmDialog p).

Definition on_view (f : Page → Page) (d : Detail) : Detail :=
  mkDetail (f (view d)) (service d) (reads d).

Definition setService (v : option ServiceData) (d : Detail) : Detail :=
  mkDetail (view d) v (reads d).

Definition ask (c : Call) (d : Detail) : Detail :=
  mkDetail (view d) (service d) (reads d ++ [c]).

(** What the four reads of [fetchBookingDetails] settle with. *)
Record Env := mkEnv {
  bookingDoc : Settled (Snapshot BookingData);
  serviceDoc : Settled (Snapshot ServiceData);
  technicianDoc : Settled (Snapshot TechnicianData);
  directory : Settled (list DirectoryRow)
}.

(** The [try] block either runs on or has thrown, with the state reached. *)
Inductive Outcome : Type :=
  | Continue (d : Detail)
  | Threw (d : Detail).

Definition and_then (o : Outcome) (f : Detail → Outcome) : Outcome :=
  match o with
  | Continue d => f d
  | Threw d => Threw d
  end.

(** [if (bookingData.serviceId) { getDoc(services/...) ... }] *)
Definition read_service (env : Env) (b : BookingData) (d : Detail) : Outcome :=
  if truthy (serviceId b) then
    let d1 := ask (CallGetDoc "services" (serviceId b)) d in
    match serviceDoc env with
    | Rejected _ => Threw d1
    | Resolved (Exists s) => Continue (setService (Some s) d1)
    | Resolved Absent => Continue d1
    end
  else Continue d.

(** [if (bookingData.technicianId) { getDoc(technicians/...) ... }] *)
Definition read_technician (env : Env) (b : BookingData) (d : Detail) : Outcome :=
  match technicianId b with
  | Some tid =>
      if truthy tid then
        let d1 := ask (CallGetDoc "technicians" tid) d in
        match technicianDoc env with
        | Rejected _ => Threw d1
        | Resolved (Exists t) => Continue (on_view (setTechnician (Some t)) d1)
        | Resolved Absent => Continue d1
        end
      else Continue d
  | None => Continue d
  end.

(** The query for [active == true] technicians and its mapping. *)
Definition read_directory (env : Env) (d : Detail) : Outcome :=
  let d1 := ask (CallGetDocs "technicians") d in
  match directory env with
  | Rejected _ => Threw d1
  | Resolved rows =>
      Continue (on_view (setActiveTechnicians (List.map to_active rows)) d1)
  end.

(** [catch] and [finally] of [fetchBookingDetails]. *)
Definition settle (o : Outcome) : Detail :=
  match o with
  | Continue d => on_view (setLoading false) d
  | Threw d =>
      on_view (setLoading false)
        (on_view (setError (Some "Failed to load booking details. Please try again.")) d)
  end.

(** [fetchBookingDetails] *)
Definition fetchBookingDetails (env : Env) (d : Detail) : Detail :=
  let d0 := on_view (setError None) d in
  let d1 := ask (CallGetDoc "bookings" (bookingId (view d))) d0 in
  match bookingDoc env with
  | Rejected _ => settle (Threw d1)
  | Resolved Absent =>
      on_view (setLoading false)
        (on_view (setError (Some "Booking not found")) d1)
  | Resolved (Exists b) =>
      let d2 := on_view (setBooking (Some b)) d1 in
      settle (and_then (and_then (read_service env b d2) (read_technician env b))
                (read_directory env))
  end.

(** The component as first rendered. *)
Definition initial (bid : string) : Detail :=
  mkDetail (mkPage bid None None [] "" true None false None false) None [].

(** The effect: [if (bookingId) fetchBookingDetails()]. *)
Definition mount (bid : string) (env : Env) : Detail :=
  if truthy bid then fetchBookingDetails env (initial bid) else initial bid.

(** The technician detail a completed load shows for booking [b]. *)
Definition shown_technician (env : Env) (b : BookingData) : option TechnicianData :=
  if truthy_opt (technicianId b) then
    match technicianDoc env with
    | Resolved (Exists t) => Some t
    | _ => None
    end
  else None.

(** Every read the load issues for booking [b] resolves. *)
Definition answers (env : Env) (b : BookingData) : bool :=
  (negb (truthy (serviceId b))
   || match serviceDoc env with Resolved _ => true | Rejected _ => false end)
  && (negb (truthy_opt (technicianId b))
      || match technicianDoc env with Resolved _ => true | Rejected _ => false end)
  && match directory env with Resolved _ => true | Rejected _ => false end.

Definition rows_of (env : Env) : list DirectoryRow :=
  match directory env with
  | Resolved rows => rows
  | Rejected _ => []
  end.

Definition row1 : DirectoryRow := mkDirectoryRow "t1" (Some "Ravi") (Some ["wiring"]).
Definition row2 : DirectoryRow := mkDirectoryRow "t2" None None.

Definition env1 : Env :=
  mkEnv (Resolved (Exists booking1)) (Resolved Absent) (Resolved Absent)
    (Resolved [row1; row2]).

End BookingLoad.

(** ** Sidebar of the dashboard layout *)

Module Sidebar.

(** The [href]s of [navLinks], in order. *)
Definition navLinks : list string :=
  ["/dashboard"; "/dashboard/services"; "/dashboard/technicians";
   "/dashboard/bookings"].

(** [isActive(href)] for the current [pathname]. *)
Definition isActive (pathname href : string) : bool :=
  if String.eqb href "/dashboard" then String.eqb pathname "/dashboard"
  else String.prefix href pathname.

End Sidebar.

(** ** Services page: enabling and disabling *)

Module ServicesToggle.
Import Services.

(** The services page with its [confirmDialog], which is either closed
    ([{ isOpen: false, service: null }]) or open on a service. *)
Record Page := mkPage {
  world : World;
  confirmDialog : option Service
}.

(** [{ isActive: newStatus }] *)
Definition toggle_fields (newStatus : bool) : Doc :=
  <["isActive" := VBool newStatus]> ∅.

(** [s.id === service.id ? { ...s, isActive: newStatus } : s] *)
Definition flip_row (sid : string) (newStatus : bool) (s : Service) : Service :=
  if String.eqb (id s) sid
  then mkService (id s) (title s) (category s) (price s) (duration s) newStatus
  else s.

(** [handleToggleStatus(service)] *)
Definition handleToggleStatus (env : Env) (svc : Service) (w : World) : World :=
  let newStatus := negb (isActive svc) in
  let w1 := on_state (fun s =>
              setServices (List.map (flip_row (id svc) newStatus) (services s)) s) w in
  let w2 := issue (CallUpdateDoc "services" (id svc) (toggle_fields newStatus)) w1 in
  match write env with
  | Resolved _ =>
      showToast env
        ("Service " +:+ (if newStatus then "enabled" else "disabled")
         +:+ " successfully") success w2
  | Rejected _ =>
      showToast env "Failed to update service status" failure
        (fetchServices env w2)
  end.

(** [handleToggleStatusClick(service)] *)
Definition handleToggleStatusClick (env : Env) (svc : Service) (p : Page) : Page :=
  if isActive svc then mkPage (world p) (Some svc)
  else mkPage (handleToggleStatus env svc (world p)) (confirmDialog p).

(** The Disable button of the dialog. *)
Definition confirm_disable (env : Env) (p : Page) : Page :=
  match confirmDialog p with
  | Some svc => mkPage (handleToggleStatus env svc (world p)) None
  | None => p
  end.

(** The Cancel button and the backdrop of the dialog. *)
Definition cancel_disable (p : Page) : Page := mkPage (world p) None.

Definition fan : Service := mkService "s1" "Fan repair" "Electrical" 300%float 45%float true.
Definition tap : Service := mkService "s2" "Tap repair" "Plumbing" 200%float 30%float false.

Definition listing : Page := mkPage (mkWorld (mkState [fan; tap] false false false None None []
                                         (mkFormData "" "" "" "")) [] []) None.

End ServicesToggle.

(** ** Bookings list and dashboard: joins by lookup *)

Module Lists.

(** JavaScript truthiness of a stored value. *)
Definition value_truthy (v : FieldValue) : bool :=
  match v with
  | VNull => false
  | VStr s => truthy s
  | VBool b => b
  | VNum x => negb (PrimFloat.eqb x 0) && PrimFloat.eqb x x
  | VTimestamp _ => true
  | VStrings _ => true
  end.

(** [a || b], where [a] may be [undefined]. *)
Definition js_or (a : option FieldValue) (b : FieldValue) : FieldValue :=
  match a with
  | Some v => if value_truthy v then v else b
  | None => b
  end.

(** [map.get(key)] on a [Map] keyed by document ids: only a string can be
    found. *)
Definition get_by {A} (m : gmap string A) (key : option FieldValue) : option A :=
  match key with
  | Some (VStr k) => m !! k
  | _ => None
  end.

(** A query snapshot: the documents with their ids, in order. *)
Abbreviation Docs := (list (string * Doc)).

(** *** Bookings page *)

Record Booking := mkBooking {
  id : string;
  serviceId : FieldValue;
  customerName : FieldValue;
  status : FieldValue;
  scheduledAt : option FieldValue;
  serviceName : FieldValue
}.

(** [servicesMap.set(doc.id, data.title || data.name || "")] for each
    document. *)
Definition servicesMap (services : Docs) : gmap string FieldValue :=
  fold_left (fun m d => <[d.1 := js_or (d.2 !! "title")
                                  (js_or (d.2 !! "name") (VStr ""))]> m)
    services ∅.

Definition to_booking (m : gmap string FieldValue) (d : string * Doc) : Booking :=
  mkBooking d.1
    (js_or (d.2 !! "serviceId") (VStr ""))
    (js_or (d.2 !! "customerName") (VStr ""))
    (js_or (d.2 !! "status") (VStr "pending"))
    (d.2 !! "scheduledAt")
    (js_or (get_by m (d.2 !! "serviceId")) (VStr "Unknown Service")).

Record BookingsState := mkBookingsState {
  bookings : list Booking;
  loading : bool
}.

(** [Promise.all] of two reads. *)
Definition all2 {A B} (a : Settled A) (b : Settled B) : Settled (A * B) :=
  match a, b with
  | Resolved x, Resolved y => Resolved (x, y)
  | Rejected e, _ => Rejected e
  | _, Rejected e => Rejected e
  end.

(** [fetchBookings] of the bookings page. *)
Definition fetchBookings (services bookingDocs : Settled Docs) (s : BookingsState)
  : BookingsState :=
  match all2 services bookingDocs with
  | Resolved (sv, bk) =>
      mkBookingsState (List.map (to_booking (servicesMap sv)) bk) false
  | Rejected _ => mkBookingsState (bookings s) false
  end.

Definition bookings_initial : BookingsState := mkBookingsState [] true.

(** *** Dashboard *)

Record Recent := mkRecent {
  r_id : string;
  r_serviceId : option FieldValue;
  r_technicianId : FieldValue;
  r_status : option FieldValue;
  r_scheduledAt : option FieldValue;
  r_serviceName : FieldValue;
  r_technicianName : FieldValue
}.

(** [map.set(doc.id, doc.data().name)] for each document. *)
Definition namesMap (docs : Docs) : gmap string (option FieldValue) :=
  fold_left (fun m d => <[d.1 := d.2 !! "name"]> m) docs ∅.

Definition is_truthy (a : option FieldValue) : bool :=
  match a with
  | Some v => value_truthy v
  | None => false
  end.

Definition to_recent (sm tm : gmap string (option FieldValue)) (d : string * Doc) : Recent :=
  mkRecent d.1
    (d.2 !! "serviceId")
    (js_or (d.2 !! "technicianId") VNull)
    (d.2 !! "status")
    (d.2 !! "scheduledAt")
    (js_or (mjoin (get_by sm (d.2 !! "serviceId"))) (VStr "Unknown Service"))
    (if is_truthy (d.2 !! "technicianId")
     then js_or (mjoin (get_by tm (d.2 !! "technicianId"))) (VStr "Unknown Technician")
     else VStr "Unassigned").

(** The three state variables of the dashboard that [fetchRecentBookings]
    sets. *)
Record RecentState := mkRecentState {
  recentBookings : list Recent;
  bookingsLoading : bool;
  bookingsError : option string
}.

(** [fetchRecentBookings] of the dashboard: [Promise.all] of three reads; the
    fault of a rejected read is only logged. *)
Definition fetchRecentBookings (services technicians bookingDocs : Settled Docs)
    (s : RecentState) : RecentState :=
  match all2 services (all2 technicians bookingDocs) with
  | Resolved (sv, (tc, bk)) =>
      mkRecentState (List.map (to_recent (namesMap sv) (namesMap tc)) bk) false None
  | Rejected _ =>
      mkRecentState (recentBookings s) false
        (Some "Unable to load recent bookings. Please try again later.")
  end.

Definition recent_initial : RecentState := mkRecentState [] true None.

Definition wiring_doc : Doc := <["title" := VStr "Wiring"]> ∅.
Definition ravi_doc : Doc := <["name" := VStr "Ravi"]> ∅.
Definition booked : Doc :=
  <["serviceId" := VStr "s1"]>
    (<["customerName" := VStr "Asha"]>
       (<["status" := VStr "pending"]>
          (<["createdAt" := VTimestamp 1700]>
             (<["scheduledAt" := VTimestamp 1800]> ∅)))).
Definition booked_for (tid : string) : Doc := <["technicianId" := VStr tid]> booked.

End Lists.

(** * Properties *)

(** ** Truthiness and documents *)

Lemma truthy_true (s : string) : truthy s = true ↔ s ≠ "".
Proof. destruct s; simpl; split; intros; congruence. Qed.

Lemma or_else_empty (s : string) : or_else s "" = s.
Proof. unfold or_else. destruct s; reflexivity. Qed.

(** A field the payload does not name keeps its stored value. *)
Lemma updateDoc_frame (stored payload : Doc) (k : string) :
  payload !! k = None → updateDoc stored payload !! k = stored !! k.
Proof.
  intros Hk. unfold updateDoc.
  destruct (stored !! k) as [v|] eqn:Hs.
  - apply lookup_union_Some_raw. right. split; assumption.
  - apply lookup_union_None. split; assumption.
Qed.

(** A field the payload names takes the payload's value. *)
Lemma updateDoc_written (stored payload : Doc) (k : string) (v : FieldValue) :
  payload !! k = Some v → updateDoc stored payload !! k = Some v.
Proof. intros Hk. unfold updateDoc. apply lookup_union_Some_l. exact Hk. Qed.

Lemma writes_app (a b : list Call) : writes (a ++ b) = writes a ++ writes b.
Proof. unfold writes. apply List.filter_app. Qed.

(** ** Booking detail page *)

Module AssignmentFacts.
Import BookingDetail.

Lemma assignment_fields_dom (sel : string) :
  dom (assignment_fields sel) = ({["technicianId"; "status"]} : gset string).
Proof.
  unfold assignment_fields. rewrite !dom_insert_L, dom_empty_L. set_solver.
Qed.

Lemma assignment_fields_other (sel k : string) :
  k ≠ "technicianId" → k ≠ "status" → assignment_fields sel !! k = None.
Proof.
  intros H1 H2. unfold assignment_fields.
  rewrite !lookup_insert_ne by congruence. apply lookup_empty.
Qed.

Lemma handleAssign_declined (w : World) : declined (page w) → handleAssign w = w.
Proof.
  intros Hd. unfold handleAssign.
  destruct (booking (page w)) as [b|] eqn:Hb; [|reflexivity].
  destruct Hd as [Hsel | (b' & t & Hb' & Ht & Hne)].
  - rewrite Hsel. reflexivity.
  - assert (b' = b) by congruence. subst b'. rewrite Ht. simpl.
    apply truthy_true in Hne. rewrite Hne, orb_true_r. reflexivity.
Qed.

Lemma handleAssignClick_declined (p : Page) : declined p → handleAssignClick p = p.
Proof.
  intros Hd. unfold handleAssignClick.
  destruct (booking p) as [b|] eqn:Hb; [|reflexivity].
  destruct Hd as [Hsel | (b' & t & Hb' & Ht & Hne)].
  - rewrite Hsel. reflexivity.
  - assert (b' = b) by congruence. subst b'. rewrite Ht. simpl.
    apply truthy_true in Hne. rewrite Hne, orb_true_r. reflexivity.
Qed.

Lemma dispatch_click_declined (e : Event) (w : World) :
  declined (page w) → e = ClickAssign ∨ e = ClickConfirm → dispatch e w = w.
Proof.
  intros Hd [-> | ->]; unfold dispatch;
    destruct (enabled _ (page w)); try reflexivity.
  - unfold on_page. rewrite handleAssignClick_declined by assumption.
    destruct w; reflexivity.
  - apply handleAssign_declined. assumption.
Qed.

(** C4: when the booking already carries a technician id (a non-empty
    string), or when the selection is empty, [handleAssignClick] and
    [handleAssign] return at their guard: the whole state is returned as it
    was, so no call is issued, no state variable changes and no message is
    set; the same holds for any sequence of clicks on the Assign and Confirm
    buttons. *)
Theorem assign_declined_is_noop (w : World) (clicks : list Event) :
  declined (page w) →
  Forall (λ e, e = ClickAssign ∨ e = ClickConfirm) clicks →
  handleAssignClick (page w) = page w
  ∧ handleAssign w = w
  ∧ run clicks w = w.
Proof.
  intros Hd Hclicks. split; [|split].
  - apply handleAssignClick_declined, Hd.
  - apply handleAssign_declined, Hd.
  - induction Hclicks as [|e l He _ IH]; [reflexivity|].
    unfold run in *. simpl. rewrite dispatch_click_declined by assumption.
    exact IH.
Qed.

Lemma assign_declined_is_noop_witness :
  let w := mkWorld
             (mkPage "bk-1" (Some (spread booking1 (Some "t2") assigned)) None
                [tech1; tech2] "t1" false None false None true) [] [] [] in
  handleAssignClick (page w) = page w
  ∧ handleAssign w = w
  ∧ run [ClickConfirm; ClickAssign; ClickConfirm] w = w.
Proof.
  apply assign_declined_is_noop.
  - right. exists (spread booking1 (Some "t2") assigned), "t2".
    split; [reflexivity|]. split; [reflexivity | discriminate].
  - repeat (apply List.Forall_cons; [auto|]). apply List.Forall_nil.
Defined.

Lemma handleAssign_calls (w : World) :
  calls (handleAssign w) = calls w
  ∨ calls (handleAssign w) =
      calls w ++ [CallUpdateDoc "bookings" (bookingId (page w))
                    (assignment_fields (selectedTechnicianId (page w)))].
Proof.
  unfold handleAssign. destruct (booking (page w)); [|left; reflexivity].
  destruct (_ || _); [left|right]; reflexivity.
Qed.

(** Even without the gating of the button, a second run of [handleAssign] on
    the state the first one committed returns at its guard: the optimistic
    update has set [technicianId]. *)
Lemma handleAssign_twice (w : World) :
  handleAssign (handleAssign w) = handleAssign w.
Proof.
  destruct (booking (page w)) as [b|] eqn:Hb.
  - destruct (negb (truthy (selectedTechnicianId (page w)))
              || truthy_opt (technicianId b)) eqn:Hg.
    + assert (E : handleAssign w = w)
        by (unfold handleAssign; rewrite Hb, Hg; reflexivity).
      rewrite E. exact E.
    + apply handleAssign_declined. right.
      exists (spread b (Some (selectedTechnicianId (page w))) assigned),
        (selectedTechnicianId (page w)).
      unfold handleAssign. rewrite Hb, Hg. simpl.
      split; [reflexivity|]. split; [reflexivity|].
      apply orb_false_elim in Hg as [Hsel _].
      apply negb_false_iff in Hsel. apply truthy_true. exact Hsel.
  - assert (E : handleAssign w = w)
      by (unfold handleAssign; rewrite Hb; reflexivity).
    rewrite E. exact E.
Qed.

(** C8: a confirmed assignment (the Confirm button fires on a booking without
    a technician and a staged selection) issues exactly one call, the
    [updateDoc] on [bookings/{bookingId}] whose payload has exactly the fields
    [technicianId] and [status]; in no state does [handleAssign] issue any
    other call; and applied to the stored document that payload sets these two
    fields and leaves every other field (serviceId, customerName,
    customerPhone, customerAddress, createdAt, scheduledAt, notes, ...) as
    stored. *)
Theorem assignment_write_touches_two_fields (w : World) (b : BookingData) :
  enabled ClickConfirm (page w) = true →
  booking (page w) = Some b →
  truthy_opt (technicianId b) = false →
  selectedTechnicianId (page w) ≠ "" →
  let payload := assignment_fields (selectedTechnicianId (page w)) in
  calls (dispatch ClickConfirm w)
  = calls w ++ [CallUpdateDoc "bookings" (bookingId (page w)) payload]
  ∧ calls (handleAssign w)
    = calls w ++ [CallUpdateDoc "bookings" (bookingId (page w)) payload]
  ∧ dom payload = ({["technicianId"; "status"]} : gset string)
  ∧ (∀ stored : Doc,
       updateDoc stored payload !! "technicianId"
       = Some (VStr (selectedTechnicianId (page w)))
       ∧ updateDoc stored payload !! "status" = Some (VStr "assigned")
       ∧ (∀ k, k ≠ "technicianId" → k ≠ "status" →
            updateDoc stored payload !! k = stored !! k)
       ∧ Forall (λ k, updateDoc stored payload !! k = stored !! k)
           ["serviceId"; "customerName"; "customerPhone"; "customerAddress";
            "createdAt"; "scheduledAt"; "notes"])
  ∧ (∀ w' : World,
       calls (handleAssign w') = calls w'
       ∨ calls (handleAssign w') =
           calls w' ++ [CallUpdateDoc "bookings" (bookingId (page w'))
                          (assignment_fields (selectedTechnicianId (page w')))])
  ∧ (∀ (stored : Doc) (sel : string),
       dom (assignment_fields sel) = ({["technicianId"; "status"]} : gset string)
       ∧ updateDoc stored (assignment_fields sel) !! "technicianId" = Some (VStr sel)
       ∧ updateDoc stored (assignment_fields sel) !! "status" = Some (VStr "assigned")
       ∧ (∀ k, k ≠ "technicianId" → k ≠ "status" →
            updateDoc stored (assignment_fields sel) !! k = stored !! k)
       ∧ Forall (λ k, updateDoc stored (assignment_fields sel) !! k = stored !! k)
           ["serviceId"; "customerName"; "customerPhone"; "customerAddress";
            "createdAt"; "scheduledAt"; "notes"]).
Proof.
  intros Hen Hb Ht Hsel payload.
  assert (Hframe : ∀ (stored : Doc) (sel k : string),
            k ≠ "technicianId" → k ≠ "status" →
            updateDoc stored (assignment_fields sel) !! k = stored !! k).
  { intros stored sel k H1 H2.
    apply updateDoc_frame, assignment_fields_other; assumption. }
  assert (Hseven : ∀ (stored : Doc) (sel : string),
            Forall (λ k, updateDoc stored (assignment_fields sel) !! k = stored !! k)
              ["serviceId"; "customerName"; "customerPhone"; "customerAddress";
               "createdAt"; "scheduledAt"; "notes"]).
  { intros stored sel. repeat constructor; apply Hframe; discriminate. }
  assert (Hcall : calls (handleAssign w)
                  = calls w ++ [CallUpdateDoc "bookings" (bookingId (page w)) payload]).
  { apply truthy_true in Hsel. unfold handleAssign.
    rewrite Hb, Ht, Hsel. reflexivity. }
  split.
  { unfold dispatch. rewrite Hen. exact Hcall. }
  split; [exact Hcall|].
  split; [apply assignment_fields_dom|].
  split.
  { intros stored.
    split; [apply updateDoc_written; reflexivity|].
    split; [apply updateDoc_written; reflexivity|].
    split; [apply Hframe | apply Hseven]. }
  split; [exact handleAssign_calls|].
  intros stored sel.
  split; [apply assignment_fields_dom|].
  split; [apply updateDoc_written; reflexivity|].
  split; [apply updateDoc_written; reflexivity|].
  split; [apply Hframe | apply Hseven].
Qed.

Lemma assignment_write_touches_two_fields_witness :
  let w := run [ChangeSelect "t1"; ClickAssign] world1 in
  calls (dispatch ClickConfirm w)
  = [CallUpdateDoc "bookings" "bk-1" (assignment_fields "t1")]
  ∧ dom (assignment_fields "t1") = ({["technicianId"; "status"]} : gset string).
Proof.
  pose proof (assignment_write_touches_two_fields
                (run [ChangeSelect "t1"; ClickAssign] world1) booking1
                eq_refl eq_refl eq_refl) as H.
  destruct H as (Hc & _ & Hd & _); [discriminate|].
  split; [exact Hc | exact Hd].
Defined.

(** *** Single flight *)

Lemma run_cons (e : Event) (l : list Event) (w : World) :
  run (e :: l) w = run l (dispatch e w).
Proof. reflexivity. Qed.

Lemma run_app (l1 l2 : list Event) (w : World) :
  run (l1 ++ l2) w = run l2 (run l1 w).
Proof. unfold run. apply fold_left_app. Qed.

Lemma on_page_id (w : World) : mkWorld (page w) (calls w) (inflight w) (timers w) = w.
Proof. destruct w; reflexivity. Qed.

(** While [isAssigning] is set, no control and no timer issues a call or
    starts an activation, and the flag stays set; the page changes at most by
    a timer clearing the message. *)
Lemma busy_step (e : Event) (w : World) :
  isAssigning (page w) = true → no_answer e = true →
  same_backend w (dispatch e w)
  ∧ (page (dispatch e w) = page w
     ∨ page (dispatch e w) = setAssignmentMessage None (page w)).
Proof.
  intros Hbusy Hna. unfold same_backend.
  destruct e; try discriminate Hna; unfold dispatch, enabled;
    rewrite ?Hbusy; simpl; rewrite ?andb_false_r, ?orb_true_r; simpl;
    rewrite ?andb_false_r; auto.
  - destruct (main_view (page w) && showConfirmDialog (page w)); auto.
    unfold on_page, backdrop_click. rewrite Hbusy. simpl. auto.
  - unfold timer_fires. destruct (timers w !! i); simpl; auto.
Qed.

(** With the flag down, an event either leaves calls, activations and flag
    as they are, or it is the Confirm button of the open dialog starting the
    one activation that issues [updateDoc] and raises the flag. *)
Lemma idle_step (e : Event) (w : World) :
  isAssigning (page w) = false → no_answer e = true →
  (same_backend w (dispatch e w) ∧ isAssigning (page (dispatch e w)) = false)
  ∨ (e = ClickConfirm
     ∧ showConfirmDialog (page w) = true
     ∧ calls (dispatch e w) =
         calls w ++ [CallUpdateDoc "bookings" (bookingId (page w))
                       (assignment_fields (selectedTechnicianId (page w)))]
     ∧ inflight (dispatch e w) = inflight w ++ [AwaitUpdateDoc (page w)]
     ∧ isAssigning (page (dispatch e w)) = true).
Proof.
  intros Hidle Hna. unfold same_backend.
  destruct e; try discriminate Hna; unfold dispatch.
  - left. destruct (enabled _ _); simpl; auto.
  - left. destruct (enabled _ _); simpl; auto.
    unfold handleAssignClick. destruct (booking (page w)); auto.
    destruct (_ || _); simpl; auto.
  - destruct (enabled ClickConfirm (page w)) eqn:Hen; [|left; auto].
    unfold enabled in Hen. apply andb_prop in Hen as [Hen _].
    apply andb_prop in Hen as [_ Hdlg].
    unfold handleAssign. destruct (booking (page w)); [|left; auto].
    destruct (_ || _); [left; auto|]. right. simpl. auto.
  - left. destruct (enabled _ _); simpl; auto.
  - left. destruct (enabled _ _); simpl; auto.
    unfold backdrop_click. destruct (negb _); simpl; auto.
  - left. destruct (enabled _ _); simpl; auto.
    unfold timer_fires. destruct (timers w !! i); simpl; auto.
Qed.

Lemma delete_singleton {A} (i : nat) (l : list A) (x : A) :
  length l = 1 → l !! i = Some x → delete i l = [].
Proof.
  destruct l as [|y [|z l]]; simpl; try discriminate. intros _.
  destruct i; simpl; [reflexivity | discriminate].
Qed.

Lemma dispatch_single_flight (e : Event) (w : World) :
  single_flight w → single_flight (dispatch e w).
Proof.
  intros Hsf. destruct (no_answer e) eqn:Hna.
  - unfold single_flight in *.
    destruct (isAssigning (page w)) eqn:Hflag.
    + destruct (busy_step e w Hflag Hna) as [[_ Hin] [Hp | Hp]];
        rewrite Hp, Hin; simpl; rewrite ?Hflag; exact Hsf.
    + destruct (idle_step e w Hflag Hna)
        as [[[_ Hin] Hf] | (_ & _ & _ & Hin & Hf)]; rewrite Hf, Hin.
      * exact Hsf.
      * rewrite Hsf. reflexivity.
  - unfold single_flight in *.
    destruct e; try discriminate Hna; unfold dispatch; simpl.
    + unfold settle_updateDoc.
      destruct (inflight w !! i) as [[c|c]|] eqn:Hi; try exact Hsf.
      destruct (isAssigning (page w)) eqn:Hflag;
        [|rewrite Hsf in Hi; discriminate].
      destruct r as [[]|err]; simpl.
      * rewrite Hflag, length_insert. exact Hsf.
      * eapply delete_singleton; eassumption.
    + unfold settle_getDoc.
      destruct (inflight w !! i) as [[c|c]|] eqn:Hi; try exact Hsf.
      destruct (isAssigning (page w)) eqn:Hflag;
        [|rewrite Hsf in Hi; discriminate].
      destruct r as [snap|err]; simpl;
        eapply delete_singleton; eassumption.
Qed.

Lemma run_single_flight (evs : list Event) (w : World) :
  single_flight w → single_flight (run evs w).
Proof.
  revert w. induction evs as [|e evs IH]; intros w Hsf; [exact Hsf|].
  rewrite run_cons. apply IH, dispatch_single_flight, Hsf.
Qed.

Lemma loaded_single_flight bid b t techs : single_flight (loaded bid b t techs).
Proof. reflexivity. Qed.

(** While the flag is up and the backend has not answered, nothing is
    issued. *)
Lemma busy_run (clicks : list Event) (w : World) :
  isAssigning (page w) = true → forallb no_answer clicks = true →
  same_backend w (run clicks w) ∧ isAssigning (page (run clicks w)) = true.
Proof.
  revert w. induction clicks as [|e l IH]; intros w Hbusy Hna.
  - split; [split|]; auto.
  - simpl in Hna. apply andb_prop in Hna as [He Hl].
    destruct (busy_step e w Hbusy He) as [[Hc Hi] Hp].
    assert (Hbusy' : isAssigning (page (dispatch e w)) = true).
    { destruct Hp as [-> | ->]; simpl; exact Hbusy. }
    rewrite run_cons. destruct (IH _ Hbusy' Hl) as [[Hc' Hi'] Hf].
    split; [split|]; congruence.
Qed.

(** Before the backend answers, a burst of events issues at most one call,
    and that call is the [updateDoc]. *)
Lemma burst_calls (clicks : list Event) (w : World) :
  forallb no_answer clicks = true →
  isAssigning (page w) = false →
  calls (run clicks w) = calls w
  ∨ ∃ sel bid, calls (run clicks w) =
      calls w ++ [CallUpdateDoc "bookings" bid (assignment_fields sel)].
Proof.
  revert w. induction clicks as [|e l IH]; intros w Hna Hidle; [left; reflexivity|].
  simpl in Hna. apply andb_prop in Hna as [He Hl]. rewrite run_cons.
  destruct (idle_step e w Hidle He)
    as [[[Hc Hi] Hf] | (_ & _ & Hc & _ & Hf)].
  - rewrite <- Hc. apply IH; assumption.
  - right. destruct (busy_run l _ Hf Hl) as [[Hc' _] _].
    rewrite Hc', Hc. eauto.
Qed.

(** C3: in every state the page can reach from a loaded booking, at most one
    activation of [handleAssign] is suspended on the backend, and the
    [isAssigning] flag is set exactly while one is.  While it is set (a write
    or its follow-up read is pending), no sequence of clicks, selections or
    timers issues any call; and from any reachable state such a sequence,
    however long, issues at most one write before the backend answers. *)
Theorem single_flight_assignment
    (bid : string) (b : BookingData) (t : option TechnicianData)
    (techs : list ActiveTechnician) (pre clicks : list Event) :
  forallb no_answer clicks = true →
  let w := run pre (loaded bid b t techs) in
  length (inflight w) ≤ 1
  ∧ (isAssigning (page w) = true ↔ inflight w ≠ [])
  ∧ (inflight w ≠ [] → calls (run clicks w) = calls w)
  ∧ length (writes (calls (run clicks w))) ≤ length (writes (calls w)) + 1.
Proof.
  intros Hna w.
  assert (Hsf : single_flight w)
    by apply run_single_flight, loaded_single_flight.
  unfold single_flight in Hsf.
  destruct (isAssigning (page w)) eqn:Hflag.
  - destruct (busy_run clicks w Hflag Hna) as [[Hc _] _].
    split; [lia|]. split; [|split].
    + split; [|reflexivity]. intros _ Hnil. rewrite Hnil in Hsf. discriminate.
    + intros _. exact Hc.
    + rewrite Hc. lia.
  - split; [rewrite Hsf; simpl; lia|]. split; [|split].
    + split; [discriminate|]. intros Hne. contradiction.
    + intros Hne. contradiction.
    + destruct (burst_calls clicks w Hna Hflag) as [Hc | (sel & bid' & Hc)];
        rewrite Hc; [lia|].
      rewrite writes_app, length_app. simpl. lia.
Qed.

Lemma single_flight_assignment_witness :
  let w := run [ChangeSelect "t1"; ClickAssign; ClickConfirm] world1 in
  length (inflight w) ≤ 1
  ∧ (isAssigning (page w) = true ↔ inflight w ≠ [])
  ∧ (inflight w ≠ [] →
     calls (run [ClickConfirm; ClickAssign; ClickConfirm; ClickBackdrop; ClickConfirm] w)
     = calls w)
  ∧ length (writes (calls (run [ClickConfirm; ClickAssign; ClickConfirm;
                                 ClickBackdrop; ClickConfirm] w)))
    ≤ length (writes (calls w)) + 1.
Proof.
  apply (single_flight_assignment "bk-1" booking1 None [tech1; tech2]
           [ChangeSelect "t1"; ClickAssign; ClickConfirm]
           [ClickConfirm; ClickAssign; ClickConfirm; ClickBackdrop; ClickConfirm]).
  reflexivity.
Defined.

(** *** Outcomes of a confirmed assignment *)

Lemma reachable_single_flight (w : World) : reachable w → single_flight w.
Proof.
  induction 1 as [bid b t techs | e w _ IH].
  - apply loaded_single_flight.
  - apply dispatch_single_flight, IH.
Qed.

Lemma run_reachable (evs : list Event) (w : World) :
  reachable w → reachable (run evs w).
Proof.
  revert w. induction evs as [|e l IH]; intros w Hw; [exact Hw|].
  rewrite run_cons. apply IH, reach_step, Hw.
Qed.

Lemma confirm_starts (w : World) (b : BookingData) :
  single_flight w → confirmable w b →
  dispatch ClickConfirm w =
    mkWorld
      (setBooking (Some (spread b (Some (selectedTechnicianId (page w))) assigned))
         (setShowConfirmDialog false
            (setAssignmentMessage None (setIsAssigning true (page w)))))
      (calls w ++ [CallUpdateDoc "bookings" (bookingId (page w))
                     (assignment_fields (selectedTechnicianId (page w)))])
      [AwaitUpdateDoc (page w)]
      (timers w).
Proof.
  intros Hsf (Hen & Hb & Ht & Hsel). unfold dispatch. rewrite Hen.
  unfold enabled in Hen. apply andb_prop in Hen as [_ Hflag].
  apply negb_true_iff in Hflag. unfold single_flight in Hsf.
  rewrite Hflag in Hsf.
  unfold handleAssign. rewrite Hb, Ht, Hsf. simpl.
  destruct (truthy_true (selectedTechnicianId (page w))) as [_ Htr].
  rewrite (Htr Hsel). reflexivity.
Qed.

(** Events that are not answers of the backend do not disturb a pending
    activation: page, calls and activations stay as the click left them. *)
Lemma pending_undisturbed (mid : list Event) (w : World) :
  isAssigning (page w) = true → assignmentMessage (page w) = None →
  forallb no_answer mid = true →
  page (run mid w) = page w ∧ same_backend w (run mid w).
Proof.
  revert w. induction mid as [|e l IH]; intros w Hbusy Hmsg Hna.
  - split; [|split]; reflexivity.
  - simpl in Hna. apply andb_prop in Hna as [He Hl]. rewrite run_cons.
    destruct (busy_step e w Hbusy He) as [[Hc Hi] Hp].
    assert (Hp' : page (dispatch e w) = page w).
    { destruct Hp as [-> | ->]; [reflexivity|].
      destruct (page w); simpl in *. rewrite Hmsg. reflexivity. }
    destruct (IH (dispatch e w)) as [Hq [Hc' Hi']];
      [rewrite Hp'; assumption .. | assumption |].
    split; [|split]; congruence.
Qed.

Lemma spread_unassigned (b : BookingData) :
  technicianId b = None → spread b None (status b) = b.
Proof. destruct b; simpl; intros ->; reflexivity. Qed.

Lemma settle_updateDoc_rejected (w : World) (c : Page) (e : Fault) :
  inflight w = [AwaitUpdateDoc c] →
  page (settle_updateDoc 0 (Rejected e) w) = (assign_catch c e (page w) (timers w)).1
  ∧ calls (settle_updateDoc 0 (Rejected e) w) = calls w
  ∧ inflight (settle_updateDoc 0 (Rejected e) w) = [].
Proof.
  intros Hi. unfold settle_updateDoc. rewrite Hi. simpl.
  repeat split; reflexivity.
Qed.

Lemma settle_getDoc_rejected (w : World) (c : Page) (e : Fault) :
  inflight w = [AwaitGetDoc c] →
  page (settle_getDoc 0 (Rejected e) w) = (assign_catch c e (page w) (timers w)).1
  ∧ calls (settle_getDoc 0 (Rejected e) w) = calls w
  ∧ inflight (settle_getDoc 0 (Rejected e) w) = [].
Proof.
  intros Hi. unfold settle_getDoc. rewrite Hi. simpl.
  repeat split; reflexivity.
Qed.

(** What the [catch] block leaves, in an activation whose closure holds the
    unassigned booking [b]. *)
Lemma assign_catch_restores (r p : Page) (b : BookingData) (e : Fault) (ts : list nat) :
  booking r = Some b → technicianId b = None →
  let p' := (assign_catch r e p ts).1 in
  booking p' = Some b
  ∧ technician p' = None
  ∧ selectedTechnicianId p' = selectedTechnicianId p
  ∧ isAssigning p' = false
  ∧ assignmentMessage p' = Some (mkMessage failure (assign_error_message e)).
Proof.
  intros Hb Ht. unfold assign_catch. rewrite Hb. simpl.
  rewrite (spread_unassigned b Ht). repeat split; reflexivity.
Qed.

(** C2: from any state the page can reach, a confirmed assignment on a
    booking [b] without technician whose [updateDoc] is rejected (whatever the
    user does meanwhile) ends with the local booking equal to [b] again, so
    with [technicianId] null and the status it had, with the technician
    detail cleared, the flag down and nothing suspended; the staged selection
    stays and the mapped error text is shown. *)
Theorem failed_assignment_rolls_back
    (bid : string) (b0 : BookingData) (t : option TechnicianData)
    (techs : list ActiveTechnician) (pre mid : list Event)
    (b : BookingData) (e : Fault) :
  let w := run pre (loaded bid b0 t techs) in
  confirmable w b →
  forallb no_answer mid = true →
  let w' := run (ClickConfirm :: mid ++ [UpdateDocSettles 0 (Rejected e)]) w in
  booking (page w') = Some b
  ∧ technician (page w') = None
  ∧ selectedTechnicianId (page w') = selectedTechnicianId (page w)
  ∧ isAssigning (page w') = false
  ∧ inflight w' = []
  ∧ assignmentMessage (page w')
    = Some (mkMessage failure (assign_error_message e))
  ∧ writes (calls w')
    = writes (calls w)
      ++ [CallUpdateDoc "bookings" (bookingId (page w))
            (assignment_fields (selectedTechnicianId (page w)))].
Proof.
  intros w Hc Hna w'.
  assert (Hsf : single_flight w)
    by apply reachable_single_flight, run_reachable, reach_loaded.
  assert (E : w' = settle_updateDoc 0 (Rejected e)
                     (run mid (dispatch ClickConfirm w))).
  { subst w'. rewrite run_cons, run_app. reflexivity. }
  clearbody w' w. subst w'. rewrite (confirm_starts w b Hsf Hc).
  set (w1 := mkWorld _ _ _ _).
  destruct (pending_undisturbed mid w1) as [Hp [Hcs Hi]];
    try reflexivity; [assumption|].
  destruct Hc as (_ & Hb & Ht & _).
  destruct (settle_updateDoc_rejected (run mid w1) (page w) e Hi)
    as (Hpg & Hcl & Hin).
  rewrite Hpg, Hcl, Hin, Hcs.
  destruct (assign_catch_restores (page w) (page (run mid w1)) b e
              (timers (run mid w1)) Hb Ht) as (H1 & H2 & H3 & H4 & H5).
  unfold w1 at 1. simpl calls. rewrite writes_app.
  repeat split; try assumption; try reflexivity.
  rewrite H3, Hp. reflexivity.
Qed.

Lemma failed_assignment_rolls_back_witness :
  let w := run [ChangeSelect "t1"; ClickAssign] (loaded "bk-1" booking1 None [tech1; tech2]) in
  let w' := run (ClickConfirm :: [ClickConfirm; ClickBackdrop]
                   ++ [UpdateDocSettles 0 (Rejected forbidden)]) w in
  booking (page w') = Some booking1
  ∧ technician (page w') = None
  ∧ selectedTechnicianId (page w') = selectedTechnicianId (page w)
  ∧ isAssigning (page w') = false
  ∧ inflight w' = []
  ∧ assignmentMessage (page w')
    = Some (mkMessage failure (assign_error_message forbidden))
  ∧ writes (calls w')
    = writes (calls w)
      ++ [CallUpdateDoc "bookings" (bookingId (page w))
            (assignment_fields (selectedTechnicianId (page w)))].
Proof.
  apply (failed_assignment_rolls_back "bk-1" booking1 None [tech1; tech2]
           [ChangeSelect "t1"; ClickAssign] [ClickConfirm; ClickBackdrop]
           booking1 forbidden).
  - split; [reflexivity|]. split; [reflexivity|]. split; [reflexivity|discriminate].
  - reflexivity.
Defined.

(** The success path: [updateDoc] resolves and the follow-up [getDoc]
    resolves with [snap]. *)
Lemma confirmed_assignment_converges
    (w : World) (b : BookingData) (snap : Snapshot TechnicianData)
    (mid1 mid2 : list Event) :
  reachable w → confirmable w b →
  forallb no_answer mid1 = true → forallb no_answer mid2 = true →
  let w' := run (ClickConfirm :: mid1 ++ UpdateDocSettles 0 (Resolved tt)
                   :: mid2 ++ [GetDocSettles 0 (Resolved snap)]) w in
  booking (page w') = Some (spread b (Some (selectedTechnicianId (page w))) assigned)
  ∧ technician (page w')
    = match snap with Exists d => Some d | Absent => technician (page w) end
  ∧ selectedTechnicianId (page w') = ""
  ∧ isAssigning (page w') = false
  ∧ inflight w' = []
  ∧ assignmentMessage (page w')
    = Some (mkMessage success (assign_success_message (page w)))
  ∧ writes (calls w')
    = writes (calls w)
      ++ [CallUpdateDoc "bookings" (bookingId (page w))
            (assignment_fields (selectedTechnicianId (page w)))].
Proof.
  intros Hr Hc Hna1 Hna2 w'.
  assert (E : w' = settle_getDoc 0 (Resolved snap)
                     (run mid2 (settle_updateDoc 0 (Resolved tt)
                                  (run mid1 (dispatch ClickConfirm w))))).
  { subst w'. rewrite run_cons, run_app, run_cons, run_app. reflexivity. }
  clearbody w'. subst w'.
  rewrite (confirm_starts w b (reachable_single_flight w Hr) Hc).
  set (w1 := mkWorld _ _ _ _).
  destruct (pending_undisturbed mid1 w1) as [Hp1 [Hc1 Hi1]];
    try reflexivity; [assumption|].
  set (w2 := settle_updateDoc 0 (Resolved tt) (run mid1 w1)).
  assert (H2 : page w2 = page w1
               ∧ calls w2 = calls w1 ++ [CallGetDoc "technicians"
                                           (selectedTechnicianId (page w))]
               ∧ inflight w2 = [AwaitGetDoc (page w)]).
  { unfold w2, settle_updateDoc. rewrite Hi1. simpl. rewrite Hp1, Hc1. auto. }
  destruct H2 as (Hq & Hcs & Hfl).
  destruct (pending_undisturbed mid2 w2) as [Hp2 [Hc2 Hi2]];
    try (rewrite Hq; reflexivity); [assumption|].
  unfold settle_getDoc. rewrite Hi2, Hfl. simpl.
  rewrite Hp2, Hq, Hc2, Hcs. simpl.
  rewrite !writes_app. simpl. rewrite app_nil_r.
  destruct snap; repeat split; reflexivity.
Qed.

(** The same history with the [getDoc] rejected: the [catch] block undoes
    the optimistic update of a write that was acknowledged. *)
Lemma fetch_fault_undoes_committed_write
    (w : World) (b : BookingData) (e : Fault) (mid1 mid2 : list Event) :
  reachable w → confirmable w b →
  forallb no_answer mid1 = true → forallb no_answer mid2 = true →
  let w' := run (ClickConfirm :: mid1 ++ UpdateDocSettles 0 (Resolved tt)
                   :: mid2 ++ [GetDocSettles 0 (Rejected e)]) w in
  booking (page w') = Some b
  ∧ technician (page w') = None
  ∧ selectedTechnicianId (page w') = selectedTechnicianId (page w)
  ∧ assignmentMessage (page w')
    = Some (mkMessage failure (assign_error_message e))
  ∧ writes (calls w')
    = writes (calls w)
      ++ [CallUpdateDoc "bookings" (bookingId (page w))
            (assignment_fields (selectedTechnicianId (page w)))].
Proof.
  intros Hr Hc Hna1 Hna2 w'.
  assert (E : w' = settle_getDoc 0 (Rejected e)
                     (run mid2 (settle_updateDoc 0 (Resolved tt)
                                  (run mid1 (dispatch ClickConfirm w))))).
  { subst w'. rewrite run_cons, run_app, run_cons, run_app. reflexivity. }
  clearbody w'. subst w'.
  rewrite (confirm_starts w b (reachable_single_flight w Hr) Hc).
  set (w1 := mkWorld _ _ _ _).
  destruct (pending_undisturbed mid1 w1) as [Hp1 [Hc1 Hi1]];
    try reflexivity; [assumption|].
  set (w2 := settle_updateDoc 0 (Resolved tt) (run mid1 w1)).
  assert (H2 : page w2 = page w1
               ∧ calls w2 = calls w1 ++ [CallGetDoc "technicians"
                                           (selectedTechnicianId (page w))]
               ∧ inflight w2 = [AwaitGetDoc (page w)]).
  { unfold w2, settle_updateDoc. rewrite Hi1. simpl. rewrite Hp1, Hc1. auto. }
  destruct H2 as (Hq & Hcs & Hfl).
  destruct (pending_undisturbed mid2 w2) as [Hp2 [Hc2 Hi2]];
    try (rewrite Hq; reflexivity); [assumption|].
  destruct Hc as (_ & Hb & Ht & _).
  rewrite Hfl in Hi2.
  destruct (settle_getDoc_rejected (run mid2 w2) (page w) e Hi2)
    as (Hpg & Hcl & _).
  rewrite Hpg, Hcl, Hc2, Hcs.
  destruct (assign_catch_restores (page w) (page (run mid2 w2)) b e
              (timers (run mid2 w2)) Hb Ht) as (H1 & H3 & H4 & _ & H5).
  unfold w1 at 1. simpl calls. rewrite !writes_app.
  change (writes [CallGetDoc "technicians" (selectedTechnicianId (page w))])
    with (@nil Call).
  rewrite app_nil_r.
  repeat split; try assumption; try reflexivity.
  rewrite H4, Hp2, Hq. reflexivity.
Qed.

(** The name in the success message is the one the directory lists for the
    staged technician. *)
Lemma success_message_names (p : Page) (t : ActiveTechnician) :
  find_technician (activeTechnicians p) (selectedTechnicianId p) = Some t →
  assign_success_message p
  = "Technician " +:+ tname t +:+ " assigned successfully.".
Proof.
  intros Hf. unfold assign_success_message. rewrite Hf, or_else_empty.
  reflexivity.
Qed.

(** C1: the write succeeds but the follow-up [getDoc] of the technician
    record is rejected.  The [catch] block then treats the committed write as
    failed: the local booking is back to [technicianId] null and status
    pending, the error text is shown and the selection is still staged, while
    the one [updateDoc] setting [t1] and [assigned] was issued and
    acknowledged. *)
Theorem fetch_fault_after_committed_write :
  let w' := run [ChangeSelect "t1"; ClickAssign; ClickConfirm;
                 UpdateDocSettles 0 (Resolved tt);
                 GetDocSettles 0 (Rejected unavailable)] world1 in
  writes (calls w') = [CallUpdateDoc "bookings" "bk-1" (assignment_fields "t1")]
  ∧ booking (page w') = Some booking1
  ∧ technicianId booking1 = None
  ∧ status booking1 = pending
  ∧ technician (page w') = None
  ∧ selectedTechnicianId (page w') = "t1"
  ∧ assignmentMessage (page w')
    = Some (mkMessage failure
              "Service temporarily unavailable. Please try again later.").
Proof. repeat split; reflexivity. Qed.

(** *** The confirmation gate *)

Lemma select_only_stages (v : string) (w : World) :
  dispatch (ChangeSelect v) w = w
  ∨ dispatch (ChangeSelect v) w = on_page (setSelectedTechnicianId v) w.
Proof. unfold dispatch. destruct (enabled _ _); auto. Qed.

Lemma dismiss_only_closes (e : Event) (w : World) :
  e = ClickCancel ∨ e = ClickBackdrop →
  dispatch e w = w ∨ dispatch e w = on_page (setShowConfirmDialog false) w.
Proof.
  intros [-> | ->]; unfold dispatch; destruct (enabled _ _); auto.
  unfold backdrop_click, on_page. destruct (negb _); auto.
  left. apply on_page_id.
Qed.

Lemma settle_updateDoc_writes i r w :
  writes (calls (settle_updateDoc i r w)) = writes (calls w)
  ∧ showConfirmDialog (page (settle_updateDoc i r w)) = showConfirmDialog (page w).
Proof.
  unfold settle_updateDoc. destruct (inflight w !! i) as [[c|c]|]; auto.
  destruct r as [[]|err]; simpl.
  - rewrite writes_app. simpl. rewrite app_nil_r. auto.
  - destruct (booking c); auto.
Qed.

Lemma settle_getDoc_writes i r w :
  writes (calls (settle_getDoc i r w)) = writes (calls w)
  ∧ showConfirmDialog (page (settle_getDoc i r w)) = showConfirmDialog (page w).
Proof.
  unfold settle_getDoc. destruct (inflight w !! i) as [[c|c]|]; auto.
  destruct r as [[d|]|err]; simpl; auto.
  destruct (booking c); auto.
Qed.

(** Only the Confirm button of the open dialog, with the flag down, issues a
    write; when it does, the dialog closes. *)
Lemma write_needs_confirm (e : Event) (w : World) :
  writes (calls (dispatch e w)) = writes (calls w)
  ∨ (e = ClickConfirm
     ∧ showConfirmDialog (page w) = true
     ∧ isAssigning (page w) = false
     ∧ showConfirmDialog (page (dispatch e w)) = false
     ∧ writes (calls (dispatch e w)) =
         writes (calls w)
         ++ [CallUpdateDoc "bookings" (bookingId (page w))
               (assignment_fields (selectedTechnicianId (page w)))]).
Proof.
  destruct e; unfold dispatch;
    try (destruct (enabled _ (page w)); left; reflexivity).
  - destruct (enabled ClickConfirm (page w)) eqn:Hen; [|left; reflexivity].
    unfold enabled in Hen. apply andb_prop in Hen as [Hen Hflag].
    apply andb_prop in Hen as [_ Hdlg]. apply negb_true_iff in Hflag.
    unfold handleAssign. destruct (booking (page w)); [|left; reflexivity].
    destruct (_ || _); [left; reflexivity|]. right. simpl.
    rewrite writes_app. auto.
  - destruct (enabled _ (page w)); [|left; reflexivity]. left.
    unfold timer_fires. destruct (timers w !! i); reflexivity.
  - left. simpl. apply settle_updateDoc_writes.
  - left. simpl. apply settle_getDoc_writes.
Qed.

Lemma dispatch_open_dialogs (e : Event) (w : World) :
  length (writes (calls (dispatch e w))) + open_dialogs (dispatch e w)
  ≤ length (writes (calls w)) + open_dialogs w
    + (if is_ClickAssign e then 1 else 0).
Proof.
  destruct (write_needs_confirm e w) as [Hw | (-> & Hd & _ & Hd' & Hw)].
  - rewrite Hw. unfold open_dialogs.
    destruct e; unfold dispatch; simpl is_ClickAssign;
      (destruct (enabled _ (page w)); simpl; [|lia]).
    + lia.
    + unfold handleAssignClick. destruct (booking (page w)); [|lia].
      destruct (_ || _); simpl; [lia|]. destruct (showConfirmDialog _); lia.
    + unfold handleAssign. destruct (booking (page w)); [|lia].
      destruct (_ || _); simpl; lia.
    + lia.
    + unfold backdrop_click. destruct (negb _); simpl; lia.
    + unfold timer_fires. destruct (timers w !! i); simpl; lia.
    + destruct (settle_updateDoc_writes i r w) as [_ ->]. lia.
    + destruct (settle_getDoc_writes i r w) as [_ ->]. lia.
  - rewrite Hw, length_app. unfold open_dialogs. rewrite Hd, Hd'. simpl. lia.
Qed.

Lemma run_open_dialogs (evs : list Event) (w : World) :
  length (writes (calls (run evs w))) + open_dialogs (run evs w)
  ≤ length (writes (calls w)) + open_dialogs w + occurrences is_ClickAssign evs.
Proof.
  revert w. induction evs as [|e l IH]; intros w; [unfold occurrences; simpl; lia|].
  rewrite run_cons. specialize (IH (dispatch e w)).
  pose proof (dispatch_open_dialogs e w) as Hs.
  unfold occurrences in *. simpl. destruct (is_ClickAssign e); simpl; simpl in Hs; lia.
Qed.

Lemma run_confirmations (evs : list Event) (w : World) :
  length (writes (calls (run evs w)))
  ≤ length (writes (calls w)) + occurrences is_ClickConfirm evs.
Proof.
  revert w. induction evs as [|e l IH]; intros w; [unfold occurrences; simpl; lia|].
  rewrite run_cons. specialize (IH (dispatch e w)).
  unfold occurrences in *. simpl.
  destruct (write_needs_confirm e w) as [Hw | (-> & _ & _ & _ & Hw)].
  - rewrite Hw in IH. destruct (is_ClickConfirm e); simpl; lia.
  - rewrite Hw, length_app in IH. simpl in *. lia.
Qed.

(** C7: changing the selection only stages the choice (no call, no
    activation, no other state variable changes); an event issues a write only
    if it is a click on the Confirm button of the open dialog; cancelling or
    clicking the backdrop at most closes the dialog and keeps the staged
    selection, the booking and the backend untouched; and over any history
    from a loaded booking, the writes issued never outnumber the clicks on
    Assign that opened the dialog, nor the clicks on Confirm. *)
Theorem confirmation_gate (w : World) :
  (∀ v, dispatch (ChangeSelect v) w = w
        ∨ dispatch (ChangeSelect v) w = on_page (setSelectedTechnicianId v) w)
  ∧ (∀ e, writes (calls (dispatch e w)) ≠ writes (calls w) →
          e = ClickConfirm ∧ showConfirmDialog (page w) = true)
  ∧ (∀ e, e = ClickCancel ∨ e = ClickBackdrop →
          (dispatch e w = w ∨ dispatch e w = on_page (setShowConfirmDialog false) w)
          ∧ selectedTechnicianId (page (dispatch e w)) = selectedTechnicianId (page w)
          ∧ booking (page (dispatch e w)) = booking (page w)
          ∧ calls (dispatch e w) = calls w
          ∧ inflight (dispatch e w) = inflight w)
  ∧ (∀ bid b t techs evs,
        length (writes (calls (run evs (loaded bid b t techs))))
        ≤ Nat.min (occurrences is_ClickAssign evs) (occurrences is_ClickConfirm evs)).
Proof.
  split; [|split; [|split]].
  - intros v. apply select_only_stages.
  - intros e Hne.
    destruct (write_needs_confirm e w) as [Hw | (-> & Hd & _)]; [contradiction|auto].
  - intros e He. split; [apply dismiss_only_closes, He|].
    destruct (dismiss_only_closes e w He) as [-> | ->]; repeat split; reflexivity.
  - intros bid b t techs evs.
    pose proof (run_open_dialogs evs (loaded bid b t techs)) as H1.
    pose proof (run_confirmations evs (loaded bid b t techs)) as H2.
    change (calls (loaded bid b t techs)) with (@nil Call) in H1, H2.
    change (open_dialogs (loaded bid b t techs)) with 0 in H1.
    simpl in H1, H2. lia.
Qed.

End AssignmentFacts.

(** ** Login page *)

Module LoginFacts.
Import Login.

Lemma error_message_unmapped (e : Fault) :
  mapped e = false →
  error_message e
  = if truthy_opt (message e) then default "" (message e) else generic_message.
Proof.
  unfold mapped, error_message. intros H.
  repeat (apply orb_false_elim in H as [H ?]).
  repeat match goal with Hc : code_is e _ = false |- _ => rewrite Hc; clear Hc end.
  reflexivity.
Qed.

Lemma handleSubmit_signIn_rejected (env : Env) (s : State) (e : Fault) :
  truthy (email s) = true → truthy (password s) = true →
  signIn env = Rejected e →
  handleSubmit env s
  = (mkState (email s) (password s) false (Some (error_message e)),
     [CallSignIn (email s) (password s)]).
Proof.
  intros He Hp Hs. unfold handleSubmit. rewrite He, Hp, Hs. reflexivity.
Qed.

(** C9, as the code has it: when sign-in is rejected with a fault whose code
    is none of the five mapped ones, the text shown is the fault's own
    [message] when that is a non-empty string, and the generic "Failed to sign
    in. Please try again." only when the fault carries no message. *)
Theorem unmapped_fault_shows_its_message (env : Env) (s : State) (e : Fault) :
  truthy (email s) = true → truthy (password s) = true →
  signIn env = Rejected e →
  mapped e = false →
  error (handleSubmit env s).1
  = Some (if truthy_opt (message e) then default "" (message e)
          else generic_message)
  ∧ loading (handleSubmit env s).1 = false
  ∧ (handleSubmit env s).2 = [CallSignIn (email s) (password s)].
Proof.
  intros He Hp Hs Hm.
  rewrite (handleSubmit_signIn_rejected env s e He Hp Hs). simpl.
  rewrite (error_message_unmapped e Hm). auto.
Qed.

Lemma unmapped_fault_shows_its_message_witness :
  error (handleSubmit unreachable filled).1
  = Some (if truthy_opt (message network_fault)
          then default "" (message network_fault) else generic_message)
  ∧ loading (handleSubmit unreachable filled).1 = false
  ∧ (handleSubmit unreachable filled).2
    = [CallSignIn (email filled) (password filled)].
Proof.
  apply (unmapped_fault_shows_its_message unreachable filled network_fault);
    reflexivity.
Defined.

(** C9 as stated fails: a network fault, whose code is not mapped, puts the
    raw message of the fault on the screen, not the generic text. *)
Lemma raw_fault_message_is_shown :
  mapped network_fault = false
  ∧ error (handleSubmit unreachable filled).1
    = Some "Firebase: Error (auth/network-request-failed)."
  ∧ error (handleSubmit unreachable filled).1 ≠ Some generic_message.
Proof. split; [reflexivity|]. split; [reflexivity|discriminate]. Qed.

End LoginFacts.

(** ** Session guard *)

Module GuardFacts.
Import Guard.

Lemma guard_run_cons (e : Event) (l : list Event) (w : World) :
  run (e :: l) w = run l (dispatch e w).
Proof. reflexivity. Qed.

Lemma redirect_state (w : World) (pend : list string) :
  isAuthorized (state (redirect w pend)) = isAuthorized (state w)
  ∧ isMounted (redirect w pend) = isMounted w.
Proof. unfold redirect. destruct (isMounted w) eqn:Hm; simpl; auto. Qed.

(** The callback never lowers [isAuthorized], and raises it only on a
    profile that exists with role ["admin"]. *)
Lemma authorized_step (e : Event) (w : World) :
  isAuthorized (state (dispatch e w))
  = isAuthorized (state w)
    || match e with
       | UserDocSettles i r =>
           grants r && isMounted w
           && match pending w !! i with Some _ => true | None => false end
       | _ => false
       end.
Proof.
  destruct e as [user|i r|]; simpl.
  - unfold on_auth. destruct (isMounted w) eqn:Hm; simpl.
    + destruct user; simpl; rewrite ?orb_false_r; reflexivity.
    + rewrite orb_false_r. reflexivity.
  - unfold on_userDoc. destruct (pending w !! i); simpl;
      [|rewrite andb_false_r, orb_false_r; reflexivity].
    rewrite andb_true_r.
    destruct r as [[d|]|err]; simpl;
      try (rewrite orb_false_r; apply redirect_state).
    + destruct (isMounted w) eqn:Hm; simpl.
      * destruct (role_is_admin d); simpl.
        -- rewrite orb_true_r. reflexivity.
        -- rewrite orb_false_r. apply redirect_state.
      * rewrite andb_false_r, orb_false_r. reflexivity.
    + destruct (isMounted w) eqn:Hm; simpl; rewrite orb_false_r;
        [apply redirect_state | reflexivity].
  - rewrite orb_false_r. reflexivity.
Qed.

(** A guard that has not authorized yet stays closed through any history in
    which no profile grants access. *)
Lemma closed_guard_stays_closed (evs : list Event) (w : World) :
  isAuthorized (state w) = false → forallb faulty evs = true →
  isAuthorized (state (run evs w)) = false
  ∧ render (state (run evs w)) = LoadingScreen.
Proof.
  revert w. induction evs as [|e l IH]; intros w Hw Hf.
  - split; [exact Hw|]. unfold render. simpl. rewrite Hw.
    rewrite orb_true_r. reflexivity.
  - simpl in Hf. apply andb_prop in Hf as [He Hl]. rewrite guard_run_cons.
    apply IH; [|exact Hl]. rewrite authorized_step, Hw. simpl.
    destruct e as [user|i r|]; try reflexivity.
    simpl in He. apply negb_true_iff in He. rewrite He. reflexivity.
Qed.

(** C6: a role check that faults after an earlier one had granted access.
    The callback never resets [isAuthorized]; once the failed check has set
    [authChecked] and cleared [loading], the render gate lets the protected
    content through although the check ended in the redirect. *)
Theorem stale_authorization_after_fault :
  let w := run [AuthStateChanged (Some "a");
                UserDocSettles 0 (Resolved (Exists Login.admin_profile));
                AuthStateChanged (Some "b");
                UserDocSettles 0 (Rejected offline)] mounted in
  isAuthorized (state w) = true
  ∧ render (state w) = Content
  ∧ calls w = [CallGetDoc "users" "a"; CallGetDoc "users" "b";
               CallRouterPush "/login"].
Proof. repeat split; reflexivity. Qed.

(** C5, as the code has it.  On an authorization fault the login page calls
    [signOut] and stays where it is: its calls are sign-in, profile read and
    sign-out, with no navigation, and once [signOut] resolves it shows the
    access-denied text.  The guard, on the same fault, marks the check
    complete and pushes ["/login"], and that push is the only call it adds:
    it does not sign out. *)
Theorem authorization_fault_outcomes
    (snap : Snapshot Doc) (env : Login.Env) (s : Login.State) (uid : string)
    (g : World) (i : nat) :
  denied snap = true →
  truthy (Login.email s) = true → truthy (Login.password s) = true →
  Login.signIn env = Resolved uid → Login.userDoc env = Resolved snap →
  isMounted g = true → is_Some (pending g !! i) →
  let out := Login.handleSubmit env s in
  let g' := dispatch (UserDocSettles i (Resolved snap)) g in
  out.2 = [CallSignIn (Login.email s) (Login.password s);
           CallGetDoc "users" uid; CallSignOut]
  ∧ Login.loading out.1 = false
  ∧ (Login.signOut env = Resolved tt →
     Login.error out.1 = Some (Login.denial_message snap))
  ∧ calls g' = calls g ++ [CallRouterPush "/login"]
  ∧ authChecked (state g') = true
  ∧ loading (state g') = false
  ∧ isAuthorized (state g') = isAuthorized (state g).
Proof.
  intros Hd He Hp Hs Hu Hm [u Hi] out g'. subst out g'.
  unfold Login.handleSubmit. rewrite He, Hp, Hs, Hu. simpl.
  unfold on_userDoc. rewrite Hi, Hm. simpl.
  assert (Hdeny : ∀ msg s0,
            Login.signOut env = Resolved tt →
            Login.error (Login.deny env msg s0) = Some msg).
  { intros msg s0 Ho. unfold Login.deny. rewrite Ho. reflexivity. }
  destruct snap as [d|]; simpl in Hd; rewrite ?Hd;
    unfold redirect; rewrite Hm; simpl;
    (split; [reflexivity|]); (split; [reflexivity|]);
    (split; [apply Hdeny|]); repeat split; reflexivity.
Qed.

Lemma authorization_fault_outcomes_witness :
  let out := Login.handleSubmit Login.stranger Login.filled in
  let g' := dispatch (UserDocSettles 0 (Resolved Absent)) checking in
  out.2 = [CallSignIn (Login.email Login.filled) (Login.password Login.filled);
           CallGetDoc "users" "u7"; CallSignOut]
  ∧ Login.loading out.1 = false
  ∧ (Login.signOut Login.stranger = Resolved tt →
     Login.error out.1 = Some (Login.denial_message Absent))
  ∧ calls g' = calls checking ++ [CallRouterPush "/login"]
  ∧ authChecked (state g') = true
  ∧ loading (state g') = false
  ∧ isAuthorized (state g') = isAuthorized (state checking).
Proof.
  apply (authorization_fault_outcomes Absent Login.stranger Login.filled "u7"
           checking 0); try reflexivity.
  exists "u7". reflexivity.
Defined.

(** C5 as stated fails on both pages: for a missing profile the guard
    redirects without any sign-out, and the login page signs out without any
    navigation. *)
Lemma denial_is_not_signOut_and_redirect :
  let g := dispatch (UserDocSettles 0 (Resolved Absent)) checking in
  let out := Login.handleSubmit Login.stranger Login.filled in
  existsb is_signOut (calls g) = false
  ∧ existsb is_push (calls g) = true
  ∧ existsb is_signOut out.2 = true
  ∧ existsb is_push out.2 = false.
Proof. repeat split; reflexivity. Qed.

End GuardFacts.

(** ** Services page *)

Module ServicesFacts.
Import Services.

Section Builtins.

Variable trim : string → string.
Variables parseFloat parseInt : string → float.

Local Abbreviation serviceData := (serviceData trim parseFloat parseInt).
Local Abbreviation validate := (validate trim parseFloat parseInt).
Local Abbreviation handleSubmit := (handleSubmit trim parseFloat parseInt).

Lemma serviceData_dom (f : FormData) :
  dom (serviceData f)
  = ({["title"; "category"; "price"; "duration"]} : gset string).
Proof.
  unfold Services.serviceData. rewrite !dom_insert_L, dom_empty_L. set_solver.
Qed.

Lemma serviceData_other (f : FormData) (k : string) :
  k ∉ ({["title"; "category"; "price"; "duration"]} : gset string) →
  serviceData f !! k = None.
Proof.
  intros Hk. apply not_elem_of_dom. rewrite serviceData_dom. exact Hk.
Qed.

Lemma not_four_fields (k : string) :
  k ≠ "title" → k ≠ "category" → k ≠ "price" → k ≠ "duration" →
  k ∉ ({["title"; "category"; "price"; "duration"]} : gset string).
Proof.
  intros H1 H2 H3 H4 Hin.
  rewrite !elem_of_union, !elem_of_singleton in Hin. intuition congruence.
Qed.

(** A form that fails a validation issues no call at all. *)
Lemma invalid_form_issues_nothing (env : Env) (w : World) (msg : string) :
  validate (formData (state w)) = Some msg →
  calls (handleSubmit env w) = calls w
  ∧ error (state (handleSubmit env w)) = Some msg.
Proof.
  intros Hv. unfold Services.handleSubmit. rewrite Hv. split; reflexivity.
Qed.

Lemma fetchServices_writes (env : Env) (w : World) :
  writes (calls (fetchServices env w)) = writes (calls w).
Proof.
  unfold fetchServices. destruct (refetch env); simpl;
    rewrite writes_app; simpl; apply app_nil_r.
Qed.

(** C10: submitting the form while editing service [sid] (the form having
    passed validation) issues exactly one write, [updateDoc] on
    [services/{sid}], whose payload has exactly the fields title, category,
    price and duration.  Applied to the stored document it leaves [isActive],
    [createdAt] and every other field as stored, so a disabled service stays
    disabled; the optimistic update of the local table keeps each row's
    [isActive] as well. *)
Theorem edit_writes_four_fields
    (env : Env) (w : World) (sid : string) (stored : Doc) :
  editingServiceId (state w) = Some sid → sid ≠ "" →
  validate (formData (state w)) = None →
  let payload := serviceData (formData (state w)) in
  let w' := handleSubmit env w in
  writes (calls w') = writes (calls w) ++ [CallUpdateDoc "services" sid payload]
  ∧ dom payload = ({["title"; "category"; "price"; "duration"]} : gset string)
  ∧ updateDoc stored payload !! "isActive" = stored !! "isActive"
  ∧ updateDoc stored payload !! "createdAt" = stored !! "createdAt"
  ∧ (∀ k, k ∉ ({["title"; "category"; "price"; "duration"]} : gset string) →
       updateDoc stored payload !! k = stored !! k)
  ∧ (stored !! "isActive" = Some (VBool false) →
       updateDoc stored payload !! "isActive" = Some (VBool false))
  ∧ (write env = Resolved tt →
       List.map (λ sv, (id sv, isActive sv)) (services (state w'))
       = List.map (λ sv, (id sv, isActive sv)) (services (state w))).
Proof.
  intros He Hne Hv payload w'.
  assert (Ht : truthy sid = true) by (apply truthy_true; exact Hne).
  assert (Hframe : ∀ k,
            k ∉ ({["title"; "category"; "price"; "duration"]} : gset string) →
            updateDoc stored payload !! k = stored !! k).
  { intros k Hk. apply updateDoc_frame, serviceData_other, Hk. }
  assert (Hact : updateDoc stored payload !! "isActive" = stored !! "isActive").
  { apply Hframe. apply not_four_fields; discriminate. }
  split; [|split; [apply serviceData_dom|split; [exact Hact|split; [|split;
    [exact Hframe|split; [intros Hs; rewrite Hact; exact Hs|]]]]]].
  - subst w'. unfold Services.handleSubmit. rewrite Hv, He, Ht.
    unfold submit_edit.
    destruct (write env) as [[]|err]; simpl.
    + rewrite writes_app. reflexivity.
    + unfold submit_catch. simpl. rewrite Ht.
      rewrite fetchServices_writes. simpl. rewrite writes_app. reflexivity.
  - apply Hframe. apply not_four_fields; discriminate.
  - intros Hw. subst w'. unfold Services.handleSubmit. rewrite Hv, He, Ht.
    unfold submit_edit. rewrite Hw.
    simpl. rewrite List.map_map. apply List.map_ext. intros sv.
    destruct (String.eqb (id sv) sid); reflexivity.
Qed.

End Builtins.

Lemma edit_writes_four_fields_witness :
  let trim := λ s : string, s in
  let pf := λ _ : string, 350%float in
  let pi := λ _ : string, 60%float in
  let payload := serviceData trim pf pi (formData (state editing_world)) in
  let w' := handleSubmit trim pf pi calm editing_world in
  writes (calls w') = writes (calls editing_world)
                      ++ [CallUpdateDoc "services" "s1" payload]
  ∧ dom payload = ({["title"; "category"; "price"; "duration"]} : gset string)
  ∧ updateDoc stored_disabled payload !! "isActive" = stored_disabled !! "isActive"
  ∧ updateDoc stored_disabled payload !! "createdAt" = stored_disabled !! "createdAt"
  ∧ (∀ k, k ∉ ({["title"; "category"; "price"; "duration"]} : gset string) →
       updateDoc stored_disabled payload !! k = stored_disabled !! k)
  ∧ (stored_disabled !! "isActive" = Some (VBool false) →
       updateDoc stored_disabled payload !! "isActive" = Some (VBool false))
  ∧ (write calm = Resolved tt →
       List.map (λ sv, (id sv, isActive sv)) (services (state w'))
       = List.map (λ sv, (id sv, isActive sv)) (services (state editing_world))).
Proof.
  apply (edit_writes_four_fields (λ s, s) (λ _, 350%float) (λ _, 60%float)
           calm editing_world "s1" stored_disabled).
  - reflexivity.
  - discriminate.
  - vm_compute. reflexivity.
Defined.

End ServicesFacts.

(** ** Booking detail page: loading *)

Module BookingLoadFacts.
Import BookingDetail BookingLoad.

Lemma truthy_of_ne (s : string) : s ≠ "" → truthy s = true.
Proof. intros H. apply truthy_true. exact H. Qed.

(** X1: when the booking document exists and every read the load issues for
    it resolves, the page [fetchBookingDetails] leaves is exactly the loaded
    page the assignment workflow starts from: that booking, the technician
    detail found for it (none when it has no technician or the document is
    missing), the mapped directory, an empty selection, no error, no flag, no
    message, no dialog. *)
Theorem complete_load_is_loaded (bid : string) (env : Env) (b : BookingData) :
  bid ≠ "" →
  bookingDoc env = Resolved (Exists b) →
  answers env b = true →
  view (mount bid env)
  = page (loaded bid b (shown_technician env b)
            (List.map to_active (rows_of env))).
Proof.
  intros Hbid Hb Hans. unfold mount. rewrite (truthy_of_ne bid Hbid).
  unfold fetchBookingDetails. rewrite Hb. simpl.
  unfold answers, shown_technician, rows_of, read_service, read_technician,
    read_directory in *.
  destruct (truthy (serviceId b)); destruct (serviceDoc env) as [[sv|]|e1];
    destruct (technicianId b) as [tid|]; simpl in *;
    try destruct (truthy tid); destruct (technicianDoc env) as [[t|]|e2];
    destruct (directory env) as [rows|e3]; simpl in *;
    try discriminate; reflexivity.
Qed.

Lemma complete_load_is_loaded_witness :
  view (mount "bk-1" env1)
  = page (loaded "bk-1" booking1 (shown_technician env1 booking1)
            (List.map to_active (rows_of env1))).
Proof.
  apply (complete_load_is_loaded "bk-1" env1 booking1).
  - discriminate.
  - reflexivity.
  - reflexivity.
Defined.

(** X2: the main view (with the assignment controls) is rendered only over a
    complete load: if it is rendered after mounting, the route parameter was
    non-empty, the booking document existed and every read issued for it
    resolved.  A missing booking, a fault of any read (even after the booking
    was stored in the state) or an empty route parameter leave the skeleton or
    the error card. *)
Theorem main_view_needs_complete_load (bid : string) (env : Env) :
  main_view (view (mount bid env)) = true →
  bid ≠ ""
  ∧ ∃ b, bookingDoc env = Resolved (Exists b) ∧ answers env b = true.
Proof.
  unfold mount. destruct (truthy bid) eqn:Hbid; [|discriminate].
  intros Hmain. split; [apply truthy_true; exact Hbid|].
  unfold fetchBookingDetails in Hmain.
  destruct (bookingDoc env) as [[b|]|e0]; try discriminate Hmain.
  exists b. split; [reflexivity|].
  unfold answers, read_service, read_technician, read_directory in *.
  simpl in Hmain.
  destruct (truthy (serviceId b)); destruct (serviceDoc env) as [[sv|]|e1];
    destruct (technicianId b) as [tid|]; simpl in *;
    try destruct (truthy tid); destruct (technicianDoc env) as [[t|]|e2];
    destruct (directory env) as [rows|e3]; simpl in *;
    try discriminate; reflexivity.
Qed.

Lemma main_view_needs_complete_load_witness :
  "bk-1" ≠ ""
  ∧ ∃ b, bookingDoc env1 = Resolved (Exists b) ∧ answers env1 b = true.
Proof.
  apply (main_view_needs_complete_load "bk-1" env1). reflexivity.
Defined.

(** X3: loading never writes and asks at most four reads; the technician
    document is read only for a booking that carries a non-empty technician
    id, and when the booking document is missing or its read faults, the
    booking read is the only call.  For an empty route parameter the effect
    does not run the load at all: the component stays as first rendered and
    nothing is read; for a non-empty one the first read is that of
    [bookings/{bookingId}]. *)
Theorem load_reads (bid : string) (env : Env) :
  writes (reads (mount bid env)) = []
  ∧ length (reads (mount bid env)) ≤ 4
  ∧ (∀ tid, CallGetDoc "technicians" tid ∈ reads (mount bid env) →
        tid ≠ ""
        ∧ ∃ b, bookingDoc env = Resolved (Exists b) ∧ technicianId b = Some tid)
  ∧ ((∀ b, bookingDoc env ≠ Resolved (Exists b)) →
        reads (mount bid env) = [] ∨ reads (mount bid env) = [CallGetDoc "bookings" bid])
  ∧ (bid = "" → mount bid env = initial bid ∧ reads (mount bid env) = [])
  ∧ (bid ≠ "" →
       (∃ rest, reads (mount bid env) = CallGetDoc "bookings" bid :: rest)
       ∧ ((∀ b, bookingDoc env ≠ Resolved (Exists b)) →
            reads (mount bid env) = [CallGetDoc "bookings" bid])).
Proof.
  assert (Hempty : bid = "" → mount bid env = initial bid ∧ reads (mount bid env) = []).
  { intros ->. split; reflexivity. }
  assert (Hfirst : bid ≠ "" →
            (∃ rest, reads (mount bid env) = CallGetDoc "bookings" bid :: rest)
            ∧ ((∀ b, bookingDoc env ≠ Resolved (Exists b)) →
                 reads (mount bid env) = [CallGetDoc "bookings" bid])).
  { intros Hne. apply truthy_true in Hne. unfold mount. rewrite Hne.
    unfold fetchBookingDetails.
    destruct (bookingDoc env) as [[b|]|e0]; simpl.
    - split; [|intros Hno; exfalso; exact (Hno b eq_refl)].
      unfold read_service, read_technician, read_directory.
      destruct (truthy (serviceId b));
        destruct (serviceDoc env) as [[sv|]|e1];
        destruct (technicianId b) as [tid|]; simpl;
        try destruct (truthy tid); simpl;
        destruct (technicianDoc env) as [[t|]|e2];
        destruct (directory env) as [rows|e3]; simpl; eexists; reflexivity.
    - split; [eexists; reflexivity | reflexivity].
    - split; [eexists; reflexivity | reflexivity]. }
  cut (writes (reads (mount bid env)) = []
       ∧ length (reads (mount bid env)) ≤ 4
       ∧ (∀ tid, CallGetDoc "technicians" tid ∈ reads (mount bid env) →
             tid ≠ ""
             ∧ ∃ b, bookingDoc env = Resolved (Exists b) ∧ technicianId b = Some tid)
       ∧ ((∀ b, bookingDoc env ≠ Resolved (Exists b)) →
             reads (mount bid env) = []
             ∨ reads (mount bid env) = [CallGetDoc "bookings" bid])).
  { intros (A & B & C & D). exact (conj A (conj B (conj C (conj D (conj Hempty Hfirst))))). }
  clear Hempty Hfirst.
  assert (Hcases :
    reads (mount bid env) = []
    ∨ ((∀ b, bookingDoc env ≠ Resolved (Exists b))
       ∧ reads (mount bid env) = [CallGetDoc "bookings" bid])
    ∨ ∃ b sv tc,
        bookingDoc env = Resolved (Exists b)
        ∧ (sv = [] ∨ sv = [CallGetDoc "services" (serviceId b)])
        ∧ (tc = [] ∨ ∃ tid, tid ≠ "" ∧ technicianId b = Some tid
                            ∧ tc = [CallGetDoc "technicians" tid])
        ∧ (reads (mount bid env) = CallGetDoc "bookings" bid :: sv ++ tc
           ∨ reads (mount bid env) = CallGetDoc "bookings" bid :: sv
           ∨ reads (mount bid env)
             = CallGetDoc "bookings" bid :: sv ++ tc ++ [CallGetDocs "technicians"])).
  { unfold mount. destruct (truthy bid) eqn:Hbid; [|left; reflexivity].
    right. unfold fetchBookingDetails.
    destruct (bookingDoc env) as [[b|]|e0]; simpl;
      [right | left; split; [discriminate|reflexivity] ..].
    unfold read_service, read_technician, read_directory.
    destruct (truthy (serviceId b)) eqn:Hs;
      destruct (serviceDoc env) as [[sv|]|e1];
      destruct (technicianId b) as [tid|] eqn:Hid; simpl;
      try destruct (truthy tid) eqn:Ht; simpl;
      destruct (technicianDoc env) as [[t|]|e2];
      destruct (directory env) as [rows|e3]; simpl;
      try (exists b, [], []; simpl; split; [reflexivity|]; split; [auto|];
           split; [auto|]; auto; fail);
      try (exists b, [CallGetDoc "services" (serviceId b)], []; simpl;
           split; [reflexivity|]; split; [auto|]; split; [auto|]; auto; fail);
      try (exists b, [], [CallGetDoc "technicians" tid]; simpl;
           split; [reflexivity|]; split; [auto|];
           split; [right; exists tid; split; [apply truthy_true; exact Ht|auto]|];
           auto; fail);
      try (exists b, [CallGetDoc "services" (serviceId b)],
             [CallGetDoc "technicians" tid]; simpl;
           split; [reflexivity|]; split; [auto|];
           split; [right; exists tid; split; [apply truthy_true; exact Ht|auto]|];
           auto; fail). }
  destruct Hcases as [H0 | [[Hno H1] | (b & sv & tc & Hb & Hsv & Htc & Hr)]].
  - rewrite H0. split; [reflexivity|]. split; [simpl; lia|].
    split; [|auto]. intros tid Hin. inversion Hin.
  - rewrite H1. split; [reflexivity|]. split; [simpl; lia|].
    split; [|auto]. intros tid Hin.
    apply list_elem_of_singleton in Hin. discriminate.
  - assert (Hwsv : writes sv = [] ∧ length sv ≤ 1
                   ∧ ∀ tid, CallGetDoc "technicians" tid ∉ sv).
    { destruct Hsv as [-> | ->]; (split; [reflexivity|]); (split; [simpl; lia|]);
        intros tid Hin; [inversion Hin|].
      apply list_elem_of_singleton in Hin. discriminate. }
    assert (Hwtc : writes tc = [] ∧ length tc ≤ 1
                   ∧ ∀ tid, CallGetDoc "technicians" tid ∈ tc →
                            tid ≠ "" ∧ technicianId b = Some tid).
    { destruct Htc as [-> | (tid0 & Hne & Hid & ->)];
        (split; [reflexivity|]); (split; [simpl; lia|]);
        intros tid Hin; [inversion Hin|].
      apply list_elem_of_singleton in Hin. injection Hin as ->. auto. }
    destruct Hwsv as (Hw1 & Hl1 & Hn1). destruct Hwtc as (Hw2 & Hl2 & Hn2).
    assert (Hmem : ∀ tid, CallGetDoc "technicians" tid ∈ reads (mount bid env) →
                          CallGetDoc "technicians" tid ∈ tc).
    { intros tid Hin.
      destruct Hr as [Hr | [Hr | Hr]]; rewrite Hr in Hin;
        rewrite elem_of_cons, ?elem_of_app in Hin;
        destruct Hin as [Hin | Hin]; try discriminate Hin.
      - destruct Hin as [Hin | Hin]; [exfalso; exact (Hn1 tid Hin) | exact Hin].
      - exfalso. exact (Hn1 tid Hin).
      - destruct Hin as [Hin | [Hin | Hin]];
          [exfalso; exact (Hn1 tid Hin) | exact Hin |].
        apply list_elem_of_singleton in Hin. discriminate. }
    split; [|split; [|split]].
    + destruct Hr as [Hr | [Hr | Hr]]; rewrite Hr; simpl;
        rewrite ?writes_app, ?Hw1, ?Hw2; reflexivity.
    + destruct Hr as [Hr | [Hr | Hr]]; rewrite Hr; simpl;
        rewrite ?length_app; simpl; lia.
    + intros tid Hin. destruct (Hn2 tid (Hmem tid Hin)) as [Hne Hid].
      split; [exact Hne|]. exists b. split; assumption.
    + intros Hno. exfalso. exact (Hno b Hb).
Qed.

End BookingLoadFacts.

(** ** Booking detail page: whole histories *)

Module AssignmentHistoryFacts.
Import BookingDetail BookingHistory AssignmentFacts.

Lemma find_technician_offered (techs : list ActiveTechnician) (v : string)
    (tech : ActiveTechnician) :
  find_technician techs v = Some tech →
  tech ∈ techs ∧ id tech = v
  ∧ existsb (λ t, String.eqb (id t) v) techs = true.
Proof.
  unfold find_technician. intros Hf.
  destruct (List.find_some _ _ Hf) as [Hin Heq].
  apply String.eqb_eq in Heq. split; [apply list_elem_of_In; exact Hin|].
  split; [exact Heq|]. apply List.existsb_exists. exists tech.
  split; [exact Hin|]. apply String.eqb_eq. exact Heq.
Qed.

(** X4: the whole happy path from a loaded page, for any booking without a
    technician whatever its status (the guards never read [status], so a
    cancelled or completed booking is assigned like a pending one): selecting
    an offered technician, Assign, Confirm, the write and the read resolving
    leave the booking with that technician and status [assigned], the
    selection cleared, the success text naming the technician as the
    directory lists it, one timer of three seconds, and exactly the calls
    [updateDoc] then [getDoc]. *)
Theorem assignment_end_to_end
    (bid : string) (b : BookingData) (t : option TechnicianData)
    (techs : list ActiveTechnician) (v : string) (tech : ActiveTechnician)
    (snap : Snapshot TechnicianData) :
  truthy_opt (technicianId b) = false →
  v ≠ "" →
  find_technician techs v = Some tech →
  let w := run [ChangeSelect v; ClickAssign; ClickConfirm;
                UpdateDocSettles 0 (Resolved tt);
                GetDocSettles 0 (Resolved snap)] (loaded bid b t techs) in
  booking (page w) = Some (spread b (Some v) assigned)
  ∧ technician (page w) = match snap with Exists d => Some d | Absent => t end
  ∧ selectedTechnicianId (page w) = ""
  ∧ isAssigning (page w) = false
  ∧ assignmentMessage (page w)
    = Some (mkMessage success
              ("Technician " +:+ tname tech +:+ " assigned successfully."))
  ∧ calls w = [CallUpdateDoc "bookings" bid (assignment_fields v);
               CallGetDoc "technicians" v]
  ∧ inflight w = []
  ∧ timers w = [3000%nat].
Proof.
  intros Hb Hv Hf w.
  destruct (find_technician_offered techs v tech Hf) as (_ & _ & Hoff).
  destruct (truthy_true v) as [_ Htv]. specialize (Htv Hv).
  set (p1 := mkPage bid (Some b) t techs v false None false None false).
  set (p2 := mkPage bid (Some b) t techs v false None false None true).
  set (p3 := mkPage bid (Some (spread b (Some v) assigned)) t techs v false
               None true None false).
  set (upd := CallUpdateDoc "bookings" bid (assignment_fields v)).
  assert (S1 : dispatch (ChangeSelect v) (loaded bid b t techs)
               = mkWorld p1 [] [] []).
  { unfold dispatch, enabled, assign_section, main_view, option_offered.
    simpl. rewrite Hb, Hoff, orb_true_r. reflexivity. }
  assert (S2 : dispatch ClickAssign (mkWorld p1 [] [] []) = mkWorld p2 [] [] []).
  { unfold dispatch, enabled, assign_section, main_view. simpl.
    rewrite Hb, Htv. simpl. unfold on_page, handleAssignClick. simpl.
    rewrite Hb, Htv. reflexivity. }
  assert (S3 : dispatch ClickConfirm (mkWorld p2 [] [] [])
               = mkWorld p3 [upd] [AwaitUpdateDoc p2] []).
  { unfold dispatch, enabled, main_view. simpl. unfold handleAssign. simpl.
    rewrite Hb, Htv. reflexivity. }
  assert (S4 : dispatch (UpdateDocSettles 0 (Resolved tt))
                 (mkWorld p3 [upd] [AwaitUpdateDoc p2] [])
               = mkWorld p3 [upd; CallGetDoc "technicians" v] [AwaitGetDoc p2] []).
  { reflexivity. }
  assert (S5 : w = settle_getDoc 0 (Resolved snap)
                     (mkWorld p3 [upd; CallGetDoc "technicians" v]
                        [AwaitGetDoc p2] [])).
  { subst w. rewrite !run_cons, S1, S2, S3, S4. reflexivity. }
  clearbody w. subst w. unfold settle_getDoc, assign_finish.
  cbn [inflight lookup list_lookup page calls timers fst snd].
  assert (Hmsg : assign_success_message p2
                 = "Technician " +:+ tname tech +:+ " assigned successfully.").
  { apply success_message_names. exact Hf. }
  rewrite Hmsg.
  destruct snap; repeat split; reflexivity.
Qed.

Lemma assignment_end_to_end_witness :
  let b := spread booking1 None cancelled in
  let w := run [ChangeSelect "t2"; ClickAssign; ClickConfirm;
                UpdateDocSettles 0 (Resolved tt);
                GetDocSettles 0 (Resolved Absent)]
             (loaded "bk-1" b None [tech1; tech2]) in
  booking (page w) = Some (spread b (Some "t2") assigned)
  ∧ technician (page w) = None
  ∧ selectedTechnicianId (page w) = ""
  ∧ isAssigning (page w) = false
  ∧ assignmentMessage (page w)
    = Some (mkMessage success
              ("Technician " +:+ tname tech2 +:+ " assigned successfully."))
  ∧ calls w = [CallUpdateDoc "bookings" "bk-1" (assignment_fields "t2");
               CallGetDoc "technicians" "t2"]
  ∧ inflight w = []
  ∧ timers w = [3000%nat].
Proof.
  apply (assignment_end_to_end "bk-1" (spread booking1 None cancelled) None
           [tech1; tech2] "t2" tech2 Absent).
  - reflexivity.
  - discriminate.
  - reflexivity.
Defined.

(** X22: a failed attempt can be retried.  After a rejected write the
    failure message is in the state with the assignment card rendered, and
    the same technician is still staged, so Assign and Confirm issue the same
    [updateDoc] again; when this one and the read after it resolve, the state
    is that of a first success (booking assigned, selection cleared,
    [assignmentMessage] set to the success message), except that the
    technician detail falls back to none (the rollback cleared it) and that
    two timers are pending: the five seconds of the failure message and the
    three seconds of the success message.  In that final state the assignment
    card, the only place that renders [assignmentMessage], is not rendered. *)
Theorem retry_after_failure
    (bid : string) (b : BookingData) (t : option TechnicianData)
    (techs : list ActiveTechnician) (v : string) (tech : ActiveTechnician)
    (e : Fault) (snap : Snapshot TechnicianData) :
  truthy_opt (technicianId b) = false →
  v ≠ "" →
  find_technician techs v = Some tech →
  let w := run [ChangeSelect v; ClickAssign; ClickConfirm;
                UpdateDocSettles 0 (Rejected e);
                ClickAssign; ClickConfirm;
                UpdateDocSettles 0 (Resolved tt);
                GetDocSettles 0 (Resolved snap)] (loaded bid b t techs) in
  booking (page w) = Some (spread b (Some v) assigned)
  ∧ technician (page w) = match snap with Exists d => Some d | Absent => None end
  ∧ selectedTechnicianId (page w) = ""
  ∧ assignmentMessage (page w)
    = Some (mkMessage success
              ("Technician " +:+ tname tech +:+ " assigned successfully."))
  ∧ writes (calls w) = [CallUpdateDoc "bookings" bid (assignment_fields v);
                        CallUpdateDoc "bookings" bid (assignment_fields v)]
  ∧ inflight w = []
  ∧ timers w = [5000%nat; 3000%nat]
  ∧ assign_section (page w) = false
  ∧ (let w4 := run [ChangeSelect v; ClickAssign; ClickConfirm;
                    UpdateDocSettles 0 (Rejected e)] (loaded bid b t techs) in
     assignmentMessage (page w4)
     = Some (mkMessage failure (assign_error_message e))
     ∧ assign_section (page w4) = true
     ∧ selectedTechnicianId (page w4) = v).
Proof.
  intros Hb Hv Hf w.
  destruct (find_technician_offered techs v tech Hf) as (_ & _ & Hoff).
  destruct (truthy_true v) as [_ Htv]. specialize (Htv Hv).
  set (msg := Some (mkMessage failure (assign_error_message e))).
  set (b' := spread b None (status b)).
  set (p1 := mkPage bid (Some b) t techs v false None false None false).
  set (p2 := mkPage bid (Some b) t techs v false None false None true).
  set (p3 := mkPage bid (Some (spread b (Some v) assigned)) t techs v false
               None true None false).
  set (p4 := mkPage bid (Some b') None techs v false None false msg false).
  set (p5 := mkPage bid (Some b') None techs v false None false msg true).
  set (p6 := mkPage bid (Some (spread b (Some v) assigned)) None techs v false
               None true None false).
  set (upd := CallUpdateDoc "bookings" bid (assignment_fields v)).
  assert (S1 : dispatch (ChangeSelect v) (loaded bid b t techs)
               = mkWorld p1 [] [] []).
  { unfold dispatch, enabled, assign_section, main_view, option_offered.
    simpl. rewrite Hb, Hoff, orb_true_r. reflexivity. }
  assert (S2 : dispatch ClickAssign (mkWorld p1 [] [] []) = mkWorld p2 [] [] []).
  { unfold dispatch, enabled, assign_section, main_view. simpl.
    rewrite Hb, Htv. simpl. unfold on_page, handleAssignClick. simpl.
    rewrite Hb, Htv. reflexivity. }
  assert (S3 : dispatch ClickConfirm (mkWorld p2 [] [] [])
               = mkWorld p3 [upd] [AwaitUpdateDoc p2] []).
  { unfold dispatch, enabled, main_view. simpl. unfold handleAssign. simpl.
    rewrite Hb, Htv. reflexivity. }
  assert (S4 : dispatch (UpdateDocSettles 0 (Rejected e))
                 (mkWorld p3 [upd] [AwaitUpdateDoc p2] [])
               = mkWorld p4 [upd] [] [5000%nat]).
  { reflexivity. }
  assert (S5 : dispatch ClickAssign (mkWorld p4 [upd] [] [5000%nat])
               = mkWorld p5 [upd] [] [5000%nat]).
  { unfold dispatch, enabled, assign_section, main_view. simpl.
    rewrite Htv. simpl. unfold on_page, handleAssignClick. simpl.
    rewrite Htv. reflexivity. }
  assert (S6 : dispatch ClickConfirm (mkWorld p5 [upd] [] [5000%nat])
               = mkWorld p6 [upd; upd] [AwaitUpdateDoc p5] [5000%nat]).
  { unfold dispatch, enabled, main_view. simpl. unfold handleAssign. simpl.
    rewrite Htv. reflexivity. }
  assert (S7 : dispatch (UpdateDocSettles 0 (Resolved tt))
                 (mkWorld p6 [upd; upd] [AwaitUpdateDoc p5] [5000%nat])
               = mkWorld p6 [upd; upd; CallGetDoc "technicians" v]
                   [AwaitGetDoc p5] [5000%nat]).
  { reflexivity. }
  assert (S8 : w = settle_getDoc 0 (Resolved snap)
                     (mkWorld p6 [upd; upd; CallGetDoc "technicians" v]
                        [AwaitGetDoc p5] [5000%nat])).
  { subst w. rewrite !run_cons, S1, S2, S3, S4, S5, S6, S7. reflexivity. }
  assert (S9 : run [ChangeSelect v; ClickAssign; ClickConfirm;
                    UpdateDocSettles 0 (Rejected e)] (loaded bid b t techs)
               = mkWorld p4 [upd] [] [5000%nat]).
  { rewrite !run_cons, S1, S2, S3, S4. reflexivity. }
  rewrite S9.
  assert (Hhid : ∀ p', booking p' = Some (spread b (Some v) assigned) →
                       assign_section p' = false).
  { intros p' Hp. unfold assign_section. rewrite Hp. simpl. rewrite Htv.
    apply andb_false_r. }
  clearbody w. subst w. unfold settle_getDoc, assign_finish.
  cbn [inflight lookup list_lookup page calls timers fst snd].
  assert (Hmsg : assign_success_message p5
                 = "Technician " +:+ tname tech +:+ " assigned successfully.").
  { apply success_message_names. exact Hf. }
  rewrite Hmsg.
  repeat (split; [destruct snap; reflexivity|]).
  split; [apply Hhid; destruct snap; reflexivity|].
  split; [reflexivity|]. split; reflexivity.
Qed.

Lemma retry_after_failure_witness :
  let w := run [ChangeSelect "t2"; ClickAssign; ClickConfirm;
                UpdateDocSettles 0 (Rejected forbidden);
                ClickAssign; ClickConfirm;
                UpdateDocSettles 0 (Resolved tt);
                GetDocSettles 0 (Resolved (Exists tech1_record))]
             (loaded "bk-1" booking1 None [tech1; tech2]) in
  booking (page w) = Some (spread booking1 (Some "t2") assigned)
  ∧ technician (page w) = Some tech1_record
  ∧ selectedTechnicianId (page w) = ""
  ∧ assignmentMessage (page w)
    = Some (mkMessage success
              ("Technician " +:+ tname tech2 +:+ " assigned successfully."))
  ∧ writes (calls w) = [CallUpdateDoc "bookings" "bk-1" (assignment_fields "t2");
                        CallUpdateDoc "bookings" "bk-1" (assignment_fields "t2")]
  ∧ inflight w = []
  ∧ timers w = [5000%nat; 3000%nat]
  ∧ assign_section (page w) = false
  ∧ (let w4 := run [ChangeSelect "t2"; ClickAssign; ClickConfirm;
                    UpdateDocSettles 0 (Rejected forbidden)]
                 (loaded "bk-1" booking1 None [tech1; tech2]) in
     assignmentMessage (page w4)
     = Some (mkMessage failure (assign_error_message forbidden))
     ∧ assign_section (page w4) = true
     ∧ selectedTechnicianId (page w4) = "t2").
Proof.
  apply (retry_after_failure "bk-1" booking1 None [tech1; tech2] "t2" tech2
           forbidden (Exists tech1_record)).
  - reflexivity.
  - discriminate.
  - reflexivity.
Defined.

Lemma loaded_assigned_inert (bid : string) (b : BookingData)
    (t : option TechnicianData) (techs : list ActiveTechnician) (e : Event) :
  truthy_opt (technicianId b) = true →
  dispatch e (loaded bid b t techs) = loaded bid b t techs.
Proof.
  intros Hb. destruct e; unfold dispatch, enabled, assign_section, main_view;
    simpl; rewrite ?Hb; simpl; reflexivity.
Qed.

(** X5: a booking that was loaded with a technician cannot be reassigned from
    this page, nor changed in any way: whatever the user clicks or selects and
    whatever settles or fires, the page stays exactly as loaded and no call is
    issued. *)
Theorem assigned_booking_is_inert
    (bid : string) (b : BookingData) (t : option TechnicianData)
    (techs : list ActiveTechnician) (evs : list Event) :
  truthy_opt (technicianId b) = true →
  run evs (loaded bid b t techs) = loaded bid b t techs.
Proof.
  intros Hb. induction evs as [|e l IH]; [reflexivity|].
  rewrite run_cons, (loaded_assigned_inert bid b t techs e Hb). exact IH.
Qed.

Lemma assigned_booking_is_inert_witness :
  run [ChangeSelect "t1"; ClickAssign; ClickConfirm; ClickBackdrop;
       UpdateDocSettles 0 (Resolved tt)]
    (loaded "bk-1" (spread booking1 (Some "t2") assigned) (Some tech1_record)
       [tech1; tech2])
  = loaded "bk-1" (spread booking1 (Some "t2") assigned) (Some tech1_record)
      [tech1; tech2].
Proof.
  apply (assigned_booking_is_inert "bk-1" (spread booking1 (Some "t2") assigned)
           (Some tech1_record) [tech1; tech2]).
  reflexivity.
Defined.

Lemma offered_has_technician (techs : list ActiveTechnician) (v : string) :
  truthy v = true →
  negb (truthy v) || existsb (λ t, String.eqb (id t) v) techs = true →
  ∃ tech, tech ∈ techs ∧ id tech ≠ "" ∧ id tech = v.
Proof.
  intros Hv Hoff. rewrite Hv in Hoff. simpl in Hoff.
  apply List.existsb_exists in Hoff as (tech & Hin & Heq).
  apply String.eqb_eq in Heq. exists tech.
  split; [apply list_elem_of_In; exact Hin|]. split; [|exact Heq].
  rewrite Heq. apply truthy_true. exact Hv.
Qed.

Lemma offered_only_step (bid : string) (techs : list ActiveTechnician)
    (e : Event) (w : World) :
  offered_only bid techs w → offered_only bid techs (dispatch e w).
Proof.
  intros (Hbid & Htechs & Hoff & Hw). unfold offered_only, option_offered in *.
  assert (Hkeep : bookingId (page w) = bid
                  ∧ activeTechnicians (page w) = techs
                  ∧ negb (truthy (selectedTechnicianId (page w)))
                    || existsb (λ t, String.eqb (id t) (selectedTechnicianId (page w)))
                         (activeTechnicians (page w)) = true
                  ∧ Forall (λ c, ∃ tech, tech ∈ techs ∧ id tech ≠ ""
                              ∧ c = CallUpdateDoc "bookings" bid
                                      (assignment_fields (id tech)))
                      (writes (calls w))) by (repeat split; assumption).
  destruct e; unfold dispatch.
  - destruct (enabled _ (page w)) eqn:Hen; [|exact Hkeep]. simpl.
    unfold enabled, option_offered in Hen.
    apply andb_prop in Hen as [_ Hen]. repeat split; assumption.
  - destruct (enabled _ (page w)); [|exact Hkeep]. simpl.
    unfold handleAssignClick. destruct (booking (page w)) as [b|]; [|exact Hkeep].
    destruct (negb (truthy (selectedTechnicianId (page w)))
              || truthy_opt (technicianId b) || isAssigning (page w));
      simpl; exact Hkeep.
  - destruct (enabled _ (page w)); [|exact Hkeep].
    unfold handleAssign. destruct (booking (page w)) as [b|]; [|exact Hkeep].
    destruct (negb (truthy (selectedTechnicianId (page w)))
              || truthy_opt (technicianId b)) eqn:Hg; [exact Hkeep|].
    apply orb_false_elim in Hg as [Hsel _]. apply negb_false_iff in Hsel.
    simpl. split; [assumption|]. split; [assumption|]. split; [assumption|].
    rewrite writes_app. apply Forall_app. split; [exact Hw|].
    simpl. apply Forall_cons. split; [|apply Forall_nil; exact I].
    rewrite Htechs in Hoff.
    destruct (offered_has_technician techs _ Hsel Hoff) as (tech & Hin & Hne & Heq).
    exists tech. rewrite <- Heq, Hbid. repeat split; assumption || reflexivity.
  - destruct (enabled _ (page w)); simpl; exact Hkeep.
  - destruct (enabled _ (page w)); [|exact Hkeep]. simpl.
    unfold backdrop_click. destruct (negb (isAssigning (page w)));
      simpl; exact Hkeep.
  - destruct (enabled _ (page w)); [|exact Hkeep].
    unfold timer_fires. destruct (timers w !! i); simpl; exact Hkeep.
  - simpl. unfold settle_updateDoc.
    destruct (inflight w !! i) as [[c|c]|]; try exact Hkeep.
    destruct r as [[]|err]; simpl.
    + rewrite writes_app. simpl. rewrite app_nil_r. exact Hkeep.
    + destruct (booking c); simpl; exact Hkeep.
  - simpl. unfold settle_getDoc.
    destruct (inflight w !! i) as [[c|c]|]; try exact Hkeep.
    destruct r as [[d|]|err]; simpl;
      try (split; [assumption|]; split; [assumption|];
           split; [reflexivity|assumption]).
    destruct (booking c); simpl; exact Hkeep.
Qed.

Lemma offered_only_run (bid : string) (techs : list ActiveTechnician)
    (evs : list Event) (w : World) :
  offered_only bid techs w → offered_only bid techs (run evs w).
Proof.
  revert w. induction evs as [|e l IH]; intros w Hw; [exact Hw|].
  rewrite run_cons. apply IH, offered_only_step, Hw.
Qed.

(** X6: over every history from a loaded page, each write issued is an
    [updateDoc] on this booking's own document that assigns a technician the
    directory offers (with a non-empty id); the selection can never name
    anything else.  In particular, when the directory of active technicians
    is empty, no history issues a write. *)
Theorem writes_assign_offered_technicians
    (bid : string) (b : BookingData) (t : option TechnicianData)
    (techs : list ActiveTechnician) (evs : list Event) :
  Forall (λ c, ∃ tech, tech ∈ techs ∧ id tech ≠ ""
                 ∧ c = CallUpdateDoc "bookings" bid (assignment_fields (id tech)))
    (writes (calls (run evs (loaded bid b t techs))))
  ∧ (techs = [] → writes (calls (run evs (loaded bid b t techs))) = []).
Proof.
  assert (H : offered_only bid techs (run evs (loaded bid b t techs))).
  { apply offered_only_run. repeat split; try reflexivity. apply Forall_nil. exact I. }
  destruct H as (_ & _ & _ & Hw). split; [exact Hw|].
  intros ->. destruct (writes _) as [|c l]; [reflexivity|].
  apply Forall_cons in Hw as [(tech & Hin & _) _]. inversion Hin.
Qed.

End AssignmentHistoryFacts.

(** ** Login page: all outcomes *)

Module LoginOutcomeFacts.
Import Login.

Lemma mapped_cases (e : Fault) :
  mapped e = true →
  code e = Some "auth/user-not-found" ∨ code e = Some "auth/wrong-password"
  ∨ code e = Some "auth/invalid-email" ∨ code e = Some "auth/user-disabled"
  ∨ code e = Some "auth/too-many-requests".
Proof.
  unfold mapped, code_is. destruct (code e) as [c|]; [|discriminate].
  intros H. repeat (apply orb_prop in H as [H | H]);
    apply String.eqb_eq in H; subst c; auto 6.
Qed.

(** X7: the five mapped fault codes get five different texts, chosen by the
    code alone: two faults with mapped codes show the same text exactly when
    their codes are equal, whatever their own messages say, and none of the
    five texts is the generic one. *)
Theorem mapped_messages_distinct (e1 e2 : Fault) :
  mapped e1 = true → mapped e2 = true →
  (error_message e1 = error_message e2 ↔ code e1 = code e2)
  ∧ error_message e1 ≠ generic_message.
Proof.
  intros H1 H2.
  apply mapped_cases in H1. apply mapped_cases in H2.
  unfold error_message, code_is, generic_message.
  destruct H1 as [-> | [-> | [-> | [-> | ->]]]];
    destruct H2 as [-> | [-> | [-> | [-> | ->]]]]; simpl;
    (split; [split; intros H; (reflexivity || discriminate H) | discriminate]).
Qed.

Lemma mapped_messages_distinct_witness :
  (error_message (mkFault (Some "auth/wrong-password") (Some "x"))
   = error_message (mkFault (Some "auth/user-disabled") None)
   ↔ code (mkFault (Some "auth/wrong-password") (Some "x"))
     = code (mkFault (Some "auth/user-disabled") None))
  ∧ error_message (mkFault (Some "auth/wrong-password") (Some "x"))
    ≠ generic_message.
Proof.
  apply (mapped_messages_distinct
           (mkFault (Some "auth/wrong-password") (Some "x"))
           (mkFault (Some "auth/user-disabled") None)); reflexivity.
Defined.

(** The calls a submit can issue, by case. *)
Lemma handleSubmit_cases (env : Env) (s : State) :
  let out := handleSubmit env s in
  (truthy (email s) && truthy (password s) = false
   ∧ out.2 = [] ∧ error out.1 ≠ None ∧ loading out.1 = loading s)
  ∨ (truthy (email s) && truthy (password s) = true
     ∧ loading out.1 = false
     ∧ ((∃ e, signIn env = Rejected e
              ∧ out.2 = [CallSignIn (email s) (password s)]
              ∧ error out.1 ≠ None)
        ∨ (∃ uid e, signIn env = Resolved uid ∧ userDoc env = Rejected e
              ∧ out.2 = [CallSignIn (email s) (password s); CallGetDoc "users" uid]
              ∧ error out.1 ≠ None)
        ∨ (∃ uid snap, signIn env = Resolved uid ∧ userDoc env = Resolved snap
              ∧ denied snap = true
              ∧ out.2 = [CallSignIn (email s) (password s);
                         CallGetDoc "users" uid; CallSignOut]
              ∧ error out.1 ≠ None)
        ∨ (∃ uid d, signIn env = Resolved uid ∧ userDoc env = Resolved (Exists d)
              ∧ role_is_admin d = true
              ∧ out.2 = [CallSignIn (email s) (password s);
                         CallGetDoc "users" uid; CallRouterPush "/dashboard"]
              ∧ error out.1 = None))).
Proof.
  unfold handleSubmit.
  destruct (truthy (email s)); [destruct (truthy (password s))|]; simpl;
    try (left; repeat split; discriminate).
  right. split; [reflexivity|].
  destruct (signIn env) as [uid|e].
  - destruct (userDoc env) as [[d|]|e'].
    + destruct (role_is_admin d) eqn:Hr; simpl.
      * split; [reflexivity|]. do 3 right. exists uid, d. repeat split; auto.
      * split; [reflexivity|]. do 2 right. left. exists uid, (Exists d).
        simpl. rewrite Hr. repeat split; auto;
          unfold deny; destruct (signOut env); discriminate.
    + simpl. split; [reflexivity|]. do 2 right. left. exists uid, Absent.
      repeat split; auto; unfold deny; destruct (signOut env); discriminate.
    + simpl. split; [reflexivity|]. right. left. exists uid, e'.
      repeat split; auto; discriminate.
  - simpl. split; [reflexivity|]. left. exists e.
    repeat split; auto; discriminate.
Qed.

(** X8: what a submit of the login form can do.  It asks nothing of the
    backend exactly when the email or the password is empty.  It navigates to
    the dashboard exactly when sign-in succeeded and the profile exists with
    role admin, and that is the only case in which no error text is set.  It
    signs out exactly when the profile read resolved to a missing or non-admin
    profile: after a fault of the profile read the session it has just opened
    stays signed in.  Whenever it asked anything, it ends with [loading]
    false. *)
Theorem login_outcomes (env : Env) (s : State) :
  let out := handleSubmit env s in
  (out.2 = [] ↔ email s = "" ∨ password s = "")
  ∧ (CallRouterPush "/dashboard" ∈ out.2 ↔
       email s ≠ "" ∧ password s ≠ ""
       ∧ ∃ uid d, signIn env = Resolved uid
                  ∧ userDoc env = Resolved (Exists d) ∧ role_is_admin d = true)
  ∧ (error out.1 = None ↔ CallRouterPush "/dashboard" ∈ out.2)
  ∧ (CallSignOut ∈ out.2 ↔
       email s ≠ "" ∧ password s ≠ ""
       ∧ ∃ uid snap, signIn env = Resolved uid
                     ∧ userDoc env = Resolved snap ∧ denied snap = true)
  ∧ (out.2 ≠ [] → loading out.1 = false).
Proof.
  intros out. pose proof (handleSubmit_cases env s) as H. fold out in H.
  assert (Hfields : truthy (email s) && truthy (password s) = true ↔
                    email s ≠ "" ∧ password s ≠ "").
  { rewrite andb_true_iff, !truthy_true. reflexivity. }
  assert (Hempty : truthy (email s) && truthy (password s) = false ↔
                   email s = "" ∨ password s = "").
  { rewrite andb_false_iff. destruct (email s), (password s); simpl;
      split; intros [?|?]; auto; discriminate. }
  destruct H as [(Hf & Hc & He & Hl) | (Hf & Hl & Hcase)].
  - assert (Hemp : email s = "" ∨ password s = "") by (apply Hempty, Hf).
    assert (Hno : ¬ (email s ≠ "" ∧ password s ≠ "")) by tauto.
    rewrite Hc.
    split; [split; [intros _; exact Hemp | reflexivity]|].
    split; [split; [intros Hin; inversion Hin | intros (H1 & H2 & _); tauto]|].
    split; [split; [intros Hn; contradiction | intros Hin; inversion Hin]|].
    split; [split; [intros Hin; inversion Hin | intros (H1 & H2 & _); tauto]|].
    intros Hn. contradiction.
  - assert (Hyes : email s ≠ "" ∧ password s ≠ "") by (apply Hfields, Hf).
    assert (Hnot : ¬ (email s = "" ∨ password s = "")) by tauto.
    assert (Hne : out.2 ≠ []).
    { destruct Hcase as [(e & _ & Hc & _) | [(uid & e & _ & _ & Hc & _)
        | [(uid & snap & _ & _ & _ & Hc & _) | (uid & d & _ & _ & _ & Hc & _)]]];
        rewrite Hc; discriminate. }
    split; [split; [intros Hc; contradiction | intros Hn; contradiction]|].
    assert (Hrest :
      (CallRouterPush "/dashboard" ∈ out.2 ↔
         ∃ uid d, signIn env = Resolved uid
                  ∧ userDoc env = Resolved (Exists d) ∧ role_is_admin d = true)
      ∧ (error out.1 = None ↔ CallRouterPush "/dashboard" ∈ out.2)
      ∧ (CallSignOut ∈ out.2 ↔
           ∃ uid snap, signIn env = Resolved uid
                       ∧ userDoc env = Resolved snap ∧ denied snap = true)).
    { destruct Hcase as [(e & Hs & Hc & He)
                      | [(uid & e & Hs & Hu & Hc & He)
                        | [(uid & snap & Hs & Hu & Hd & Hc & He)
                          | (uid & d & Hs & Hu & Hr & Hc & He)]]];
        rewrite Hc.
      - assert (Hp : ∀ c, c ≠ CallSignIn (email s) (password s) →
                          c ∉ [CallSignIn (email s) (password s)]).
        { intros c Hc' Hin. apply list_elem_of_singleton in Hin. contradiction. }
        split; [split; [intros Hin; exfalso; revert Hin; apply Hp; discriminate
                       | intros (u & d & Hs' & _); congruence]|].
        split; [split; [intros Hn; contradiction
                       | intros Hin; exfalso; revert Hin; apply Hp; discriminate]|].
        split; [intros Hin; exfalso; revert Hin; apply Hp; discriminate
               | intros (u & sn & Hs' & _); congruence].
      - assert (Hp : ∀ c, c ≠ CallSignIn (email s) (password s) →
                          c ≠ CallGetDoc "users" uid →
                          c ∉ [CallSignIn (email s) (password s);
                               CallGetDoc "users" uid]).
        { intros c H1 H2 Hin. rewrite !elem_of_cons in Hin.
          destruct Hin as [Hin | [Hin | Hin]]; [contradiction .. | inversion Hin]. }
        split; [split; [intros Hin; exfalso; revert Hin; apply Hp; discriminate
                       | intros (u & d & _ & Hu' & _); congruence]|].
        split; [split; [intros Hn; contradiction
                       | intros Hin; exfalso; revert Hin; apply Hp; discriminate]|].
        split; [intros Hin; exfalso; revert Hin; apply Hp; discriminate
               | intros (u & sn & _ & Hu' & _); congruence].
      - split; [split|].
        + intros Hin. rewrite !elem_of_cons in Hin.
          destruct Hin as [Hin | [Hin | [Hin | Hin]]];
            [discriminate .. | inversion Hin].
        + intros (u & d & _ & Hu' & Hr'). rewrite Hu in Hu'.
          injection Hu' as ->. simpl in Hd. rewrite Hr' in Hd. discriminate.
        + split; [split|].
          * intros Hn. contradiction.
          * intros Hin. rewrite !elem_of_cons in Hin.
            destruct Hin as [Hin | [Hin | [Hin | Hin]]];
              [discriminate .. | inversion Hin].
          * split; [intros _; exists uid, snap; auto|].
            intros _. rewrite !elem_of_cons. auto.
      - split; [split|].
        + intros _. exists uid, d. auto.
        + intros _. rewrite !elem_of_cons. auto.
        + split; [split|].
          * intros _. rewrite !elem_of_cons. auto.
          * intros _. exact He.
          * split.
            -- intros Hin. rewrite !elem_of_cons in Hin.
               destruct Hin as [Hin | [Hin | [Hin | Hin]]];
                 [discriminate .. | inversion Hin].
            -- intros (u & sn & _ & Hu' & Hd'). rewrite Hu in Hu'.
               injection Hu' as <-. simpl in Hd'. rewrite Hr in Hd'.
               discriminate. }
    destruct Hrest as (Hr1 & Hr2 & Hr3).
    split; [rewrite Hr1; tauto|]. split; [exact Hr2|].
    split; [rewrite Hr3; tauto|]. intros _. exact Hl.
Qed.

End LoginOutcomeFacts.

(** ** Session guard: whole histories *)

Module GuardHistoryFacts.
Import Guard GuardFacts.

Lemma unmounted_step (e : Event) (w : World) :
  isMounted w = false →
  state (dispatch e w) = state w ∧ calls (dispatch e w) = calls w
  ∧ isMounted (dispatch e w) = false.
Proof.
  intros Hm. destruct e as [user|i r|]; simpl.
  - unfold on_auth. rewrite Hm. simpl. auto.
  - unfold on_userDoc. destruct (pending w !! i); [|auto].
    destruct r as [snap|err]; unfold redirect; rewrite Hm; simpl; auto.
  - auto.
Qed.

(** X9: once the layout is unmounted, nothing the identity provider or the
    document store delivers afterwards changes the guard's state or issues a
    redirect: a profile read that settles late is dropped. *)
Theorem unmounted_guard_is_frozen (evs : list Event) (w : World) :
  state (run evs (unmount w)) = state w
  ∧ calls (run evs (unmount w)) = calls w
  ∧ isMounted (run evs (unmount w)) = false.
Proof.
  assert (H : ∀ w', isMounted w' = false →
            state (run evs w') = state w' ∧ calls (run evs w') = calls w'
            ∧ isMounted (run evs w') = false).
  { induction evs as [|e l IH]; intros w' Hm; [auto|].
    rewrite guard_run_cons.
    destruct (unmounted_step e w' Hm) as (Hs & Hc & Hm').
    destruct (IH _ Hm') as (Hs' & Hc' & Hm'').
    repeat split; congruence. }
  apply (H (unmount w)). reflexivity.
Qed.

Lemma forallb_false_witness {A} (f : A → bool) (l : list A) :
  forallb f l = false → ∃ x, In x l ∧ f x = false.
Proof.
  induction l as [|a l IH]; simpl; [discriminate|].
  destruct (f a) eqn:Ha; simpl.
  - intros H. destruct (IH H) as (x & Hin & Hx). eauto.
  - intros _. eauto.
Qed.

(** X10: protected content is rendered only after a profile read of the
    history has returned an existing profile whose role is admin: from mount,
    if the render gate lets the content through, some event of the history is
    such a read. *)
Theorem content_needs_admin_profile (evs : list Event) :
  render (state (run evs mounted)) = Content →
  ∃ i d, UserDocSettles i (Resolved (Exists d)) ∈ evs ∧ role_is_admin d = true.
Proof.
  intros Hc. destruct (forallb faulty evs) eqn:Hf.
  - destruct (closed_guard_stays_closed evs mounted eq_refl Hf) as [_ Hl].
    rewrite Hl in Hc. discriminate.
  - destruct (forallb_false_witness faulty evs Hf) as (e & Hin & He).
    destruct e as [user|i r|]; try discriminate He.
    simpl in He. apply negb_false_iff in He.
    destruct r as [[d|]|err]; try discriminate He.
    exists i, d. split; [apply list_elem_of_In; exact Hin | exact He].
Qed.

Lemma redirect_calls (w : World) (pend : list string) :
  calls (redirect w pend) = calls w
  ∨ calls (redirect w pend) = calls w ++ [CallRouterPush "/login"].
Proof. unfold redirect. destruct (isMounted w); simpl; auto. Qed.

Lemma guard_step_calls (e : Event) (w : World) :
  calls (dispatch e w) = calls w
  ∨ calls (dispatch e w) = calls w ++ [CallRouterPush "/login"]
  ∨ ∃ uid, e = AuthStateChanged (Some uid)
           ∧ calls (dispatch e w) = calls w ++ [CallGetDoc "users" uid].
Proof.
  destruct e as [user|i r|]; simpl; [| |auto].
  - unfold on_auth. destruct (isMounted w) eqn:Hm; simpl; [|auto].
    destruct user as [uid|]; [right; right; eauto|].
    unfold redirect. simpl. auto.
  - unfold on_userDoc. destruct (pending w !! i); [|auto].
    destruct r as [[d|]|err];
      try (destruct (redirect_calls w (delete i (pending w))) as [-> | ->]; auto).
    + destruct (isMounted w); simpl; [|auto].
      destruct (role_is_admin d); simpl; [auto|].
      destruct (redirect_calls w (delete i (pending w))) as [-> | ->]; auto.
    + destruct (isMounted w); simpl; [|auto].
      destruct (redirect_calls w (delete i (pending w))) as [-> | ->]; auto.
Qed.

(** X11: over every history from mount the guard asks only two things of
    its collaborators: the profile document [users/{uid}] of a session it was
    notified of, and a navigation to ["/login"].  It never signs out, never
    writes a document and never navigates anywhere else. *)
Theorem guard_only_reads_and_redirects (evs : list Event) :
  Forall (λ c, c = CallRouterPush "/login"
               ∨ ∃ uid, c = CallGetDoc "users" uid
                        ∧ AuthStateChanged (Some uid) ∈ evs)
    (calls (run evs mounted)).
Proof.
  assert (H : ∀ l w,
            Forall (λ c, c = CallRouterPush "/login"
                         ∨ ∃ uid, c = CallGetDoc "users" uid
                                  ∧ AuthStateChanged (Some uid) ∈ evs) (calls w) →
            (∀ e, e ∈ l → e ∈ evs) →
            Forall (λ c, c = CallRouterPush "/login"
                         ∨ ∃ uid, c = CallGetDoc "users" uid
                                  ∧ AuthStateChanged (Some uid) ∈ evs)
              (calls (run l w))).
  { induction l as [|e l IH]; intros w Hw Hsub; [exact Hw|].
    rewrite guard_run_cons. apply IH.
    - destruct (guard_step_calls e w) as [-> | [-> | (uid & -> & ->)]];
        [exact Hw | |]; apply Forall_app; (split; [exact Hw|]);
        apply Forall_cons; (split; [|apply Forall_nil; exact I]); [auto|].
      right. exists uid. split; [reflexivity|]. apply Hsub. left.
    - intros e' Hin. apply Hsub. right. exact Hin. }
  apply H; [apply Forall_nil; exact I | auto].
Qed.

Lemma content_needs_admin_profile_witness :
  ∃ i d, UserDocSettles i (Resolved (Exists d))
         ∈ [AuthStateChanged (Some "a");
            UserDocSettles 0 (Resolved (Exists Login.admin_profile))]
         ∧ role_is_admin d = true.
Proof.
  apply (content_needs_admin_profile
           [AuthStateChanged (Some "a");
            UserDocSettles 0 (Resolved (Exists Login.admin_profile))]).
  reflexivity.
Defined.

End GuardHistoryFacts.

(** ** Sidebar *)

Module SidebarFacts.
Import Sidebar.

(** Two prefixes of one string are comparable. *)
Lemma prefix_comparable (a b p : string) :
  String.prefix a p = true → String.prefix b p = true →
  String.prefix a b = true ∨ String.prefix b a = true.
Proof.
  revert a b. induction p as [|c p IH]; intros a b Ha Hb.
  - destruct a; [left; destruct b; reflexivity | simpl in Ha; discriminate].
  - destruct a as [|x a]; [left; destruct b; reflexivity|].
    destruct b as [|y b]; [right; reflexivity|].
    simpl in Ha, Hb.
    destruct (Ascii.ascii_dec x c) as [->|]; [|discriminate].
    destruct (Ascii.ascii_dec y c) as [->|]; [|discriminate].
    simpl. destruct (Ascii.ascii_dec c c) as [_|Hn]; [|contradiction].
    apply IH; assumption.
Qed.

(** X12: whatever the current path, the sidebar highlights at most one of its
    four links; the Dashboard link is highlighted on ["/dashboard"] only, not
    on the pages below it. *)
Theorem at_most_one_link_active (pathname : string) :
  length (List.filter (isActive pathname) navLinks) ≤ 1
  ∧ (isActive pathname "/dashboard" = true ↔ pathname = "/dashboard").
Proof.
  split; [|unfold isActive; simpl; apply String.eqb_eq].
  unfold navLinks, isActive. simpl.
  destruct (String.eqb pathname "/dashboard") eqn:Hd.
  - apply String.eqb_eq in Hd. subst pathname. simpl. lia.
  - destruct (String.prefix "/dashboard/services" pathname) eqn:H1;
      destruct (String.prefix "/dashboard/technicians" pathname) eqn:H2;
      destruct (String.prefix "/dashboard/bookings" pathname) eqn:H3;
      simpl; try lia; exfalso.
    + destruct (prefix_comparable _ _ _ H1 H2) as [H | H]; discriminate H.
    + destruct (prefix_comparable _ _ _ H1 H2) as [H | H]; discriminate H.
    + destruct (prefix_comparable _ _ _ H1 H3) as [H | H]; discriminate H.
    + destruct (prefix_comparable _ _ _ H2 H3) as [H | H]; discriminate H.
Qed.

End SidebarFacts.

(** ** Services page: enabling and disabling *)

Module ServicesToggleFacts.
Import Services ServicesToggle.

Lemma showToast_calls env msg ty w :
  calls (showToast env msg ty w) = calls w
  ∧ services (state (showToast env msg ty w)) = services (state w).
Proof. split; reflexivity. Qed.

Lemma fetchServices_calls (env : Env) (w : World) :
  writes (calls (fetchServices env w)) = writes (calls w).
Proof.
  unfold fetchServices. destruct (refetch env); simpl;
    rewrite writes_app; simpl; apply app_nil_r.
Qed.

Lemma handleToggleStatus_writes (env : Env) (svc : Service) (w : World) :
  writes (calls (handleToggleStatus env svc w))
  = writes (calls w)
    ++ [CallUpdateDoc "services" (id svc) (toggle_fields (negb (isActive svc)))].
Proof.
  unfold handleToggleStatus. destruct (write env).
  - rewrite (proj1 (showToast_calls _ _ _ _)). simpl.
    rewrite writes_app. reflexivity.
  - rewrite (proj1 (showToast_calls _ _ _ _)), fetchServices_calls. simpl.
    rewrite writes_app. reflexivity.
Qed.

(** X13: the toggle button of a row never disables a service by itself.  On
    an active service it only opens the confirmation dialog on that service
    (no call, no change of the table); on an inactive one it writes
    [isActive: true] at once.  The write that disables is issued only by the
    dialog's Disable button, for the service the dialog was opened on, and
    cancelling issues nothing. *)
Theorem disabling_needs_confirmation (env : Env) (svc : Service) (p : Page) :
  (if isActive svc
   then handleToggleStatusClick env svc p = mkPage (world p) (Some svc)
   else writes (calls (world (handleToggleStatusClick env svc p)))
        = writes (calls (world p))
          ++ [CallUpdateDoc "services" (id svc) (toggle_fields true)])
  ∧ writes (calls (world (confirm_disable env p)))
    = writes (calls (world p))
      ++ match confirmDialog p with
         | Some s => [CallUpdateDoc "services" (id s)
                        (toggle_fields (negb (isActive s)))]
         | None => []
         end
  ∧ confirmDialog (confirm_disable env p) = None
  ∧ cancel_disable p = mkPage (world p) None.
Proof.
  split; [|split; [|split]].
  - unfold handleToggleStatusClick. destruct (isActive svc) eqn:Ha; [reflexivity|].
    simpl. rewrite handleToggleStatus_writes, Ha. reflexivity.
  - unfold confirm_disable. destruct (confirmDialog p) as [s|]; simpl.
    + apply handleToggleStatus_writes.
    + rewrite app_nil_r. reflexivity.
  - unfold confirm_disable. destruct (confirmDialog p) eqn:Hc;
      [reflexivity | exact Hc].
  - reflexivity.
Qed.

Lemma flip_row_frame (sid : string) (b : bool) (s : Service) :
  id (flip_row sid b s) = id s ∧ title (flip_row sid b s) = title s
  ∧ category (flip_row sid b s) = category s
  ∧ price (flip_row sid b s) = price s
  ∧ duration (flip_row sid b s) = duration s
  ∧ (id s ≠ sid → flip_row sid b s = s)
  ∧ (id s = sid → isActive (flip_row sid b s) = b).
Proof.
  unfold flip_row. destruct (String.eqb (id s) sid) eqn:He; simpl.
  - apply String.eqb_eq in He. repeat split; auto. intros Hn. contradiction.
  - apply String.eqb_neq in He. repeat split; auto. intros Hn. contradiction.
Qed.

(** X14: a toggle touches nothing but the status.  The one call an
    acknowledged [handleToggleStatus] issues is [updateDoc] on
    [services/{id}], and whether the write is acknowledged or not its one
    write is that [updateDoc]; the payload it hands over has the single field
    [isActive], so the stored title, category, price, duration and creation
    time stay; and when the write is acknowledged the local table has the
    same rows in the same order, each with its id, title, category, price and
    duration, the rows of other services unchanged and the rows of the
    toggled service with the flipped status. *)
Theorem toggle_touches_only_status (env : Env) (svc : Service) (w : World) (stored : Doc) :
  write env = Resolved tt →
  let payload := toggle_fields (negb (isActive svc)) in
  calls (handleToggleStatus env svc w)
  = calls w ++ [CallUpdateDoc "services" (id svc) payload]
  ∧ (∀ env', writes (calls (handleToggleStatus env' svc w))
             = writes (calls w) ++ [CallUpdateDoc "services" (id svc) payload])
  ∧ dom payload = ({["isActive"]} : gset string)
  ∧ updateDoc stored payload !! "isActive" = Some (VBool (negb (isActive svc)))
  ∧ (∀ k, k ≠ "isActive" → updateDoc stored payload !! k = stored !! k)
  ∧ services (state (handleToggleStatus env svc w))
    = List.map (flip_row (id svc) (negb (isActive svc))) (services (state w))
  ∧ Forall2 (λ s s', id s' = id s ∧ title s' = title s ∧ category s' = category s
                     ∧ price s' = price s ∧ duration s' = duration s
                     ∧ (id s ≠ id svc → s' = s)
                     ∧ (id s = id svc → isActive s' = negb (isActive svc)))
      (services (state w)) (services (state (handleToggleStatus env svc w))).
Proof.
  intros Hw payload. subst payload.
  split; [|split; [|split; [|split; [|split; [|split]]]]].
  - unfold handleToggleStatus. rewrite Hw.
    rewrite (proj1 (showToast_calls _ _ _ _)). reflexivity.
  - intros env'. apply handleToggleStatus_writes.
  - unfold toggle_fields. rewrite dom_insert_L, dom_empty_L. set_solver.
  - apply updateDoc_written. reflexivity.
  - intros k Hk. apply updateDoc_frame. unfold toggle_fields.
    rewrite lookup_insert_ne by congruence. apply lookup_empty.
  - unfold handleToggleStatus. rewrite Hw. reflexivity.
  - unfold handleToggleStatus. rewrite Hw. simpl.
    induction (services (state w)) as [|s l IH]; simpl; constructor; [|exact IH].
    apply flip_row_frame.
Qed.

Lemma toggle_touches_only_status_witness :
  calls (handleToggleStatus calm tap (world listing))
  = [CallUpdateDoc "services" "s2" (toggle_fields true)]
  ∧ dom (toggle_fields true) = ({["isActive"]} : gset string)
  ∧ services (state (handleToggleStatus calm tap (world listing)))
    = [fan; mkService "s2" "Tap repair" "Plumbing" 200%float 30%float true].
Proof.
  pose proof (toggle_touches_only_status calm tap (world listing) stored_disabled
                eq_refl) as H.
  destruct H as (Hc & _ & Hd & _ & _ & Hs & _).
  split; [exact Hc|]. split; [exact Hd | exact Hs].
Defined.

(** X15: a toggle whose write is rejected asks for the table again and shows
    the failure toast.  When that read resolves, the table is what the store
    returned; when it faults too, [fetchServices] swallows the fault and the
    table keeps the optimistic flip, so it shows a status that was never
    stored. *)
Theorem failed_toggle_reverts_by_refetch (env : Env) (svc : Service) (w : World) (e : Fault) :
  write env = Rejected e →
  let w' := handleToggleStatus env svc w in
  services (state w')
  = match refetch env with
    | Resolved rows => rows
    | Rejected _ =>
        List.map (flip_row (id svc) (negb (isActive svc))) (services (state w))
    end
  ∧ calls w' = calls w
               ++ [CallUpdateDoc "services" (id svc)
                     (toggle_fields (negb (isActive svc)));
                   CallGetDocs "services"]
  ∧ toasts (state w')
    = toasts (state w)
      ++ [mkToast (pretty (date_now env)) "Failed to update service status" failure]
  ∧ loading (state w') = false.
Proof.
  intros Hw w'. subst w'. unfold handleToggleStatus. rewrite Hw.
  unfold fetchServices. destruct (refetch env); simpl;
    rewrite <- app_assoc; repeat split; reflexivity.
Qed.

Lemma failed_toggle_reverts_by_refetch_witness :
  let env := mkEnv 5 6 (Rejected (mkFault None None)) (Rejected (mkFault None None)) in
  let w' := handleToggleStatus env tap (world listing) in
  services (state w')
  = match refetch env with
    | Resolved rows => rows
    | Rejected _ =>
        List.map (flip_row (id tap) (negb (isActive tap)))
          (services (state (world listing)))
    end
  ∧ calls w' = calls (world listing)
               ++ [CallUpdateDoc "services" (id tap)
                     (toggle_fields (negb (isActive tap)));
                   CallGetDocs "services"]
  ∧ toasts (state w')
    = toasts (state (world listing))
      ++ [mkToast (pretty (date_now env)) "Failed to update service status" failure]
  ∧ loading (state w') = false.
Proof.
  apply (failed_toggle_reverts_by_refetch
           (mkEnv 5 6 (Rejected (mkFault None None)) (Rejected (mkFault None None)))
           tap (world listing) (mkFault None None)).
  reflexivity.
Defined.

End ServicesToggleFacts.

(** ** Services page: creating, and failed submits *)

Module ServicesSubmitFacts.
Import Services.

Section Builtins.

Variable trim : string → string.
Variables parseFloat parseInt : string → float.

Local Abbreviation serviceData := (serviceData trim parseFloat parseInt).
Local Abbreviation new_service := (new_service trim parseFloat parseInt).
Local Abbreviation validate := (validate trim parseFloat parseInt).
Local Abbreviation handleSubmit := (handleSubmit trim parseFloat parseInt).
Local Abbreviation merge_row := (merge_row trim parseFloat parseInt).

Lemma new_service_dom (env : Env) (f : FormData) :
  dom (new_service env f)
  = ({["title"; "category"; "price"; "duration"; "isActive"; "createdAt"]}
      : gset string).
Proof.
  unfold Services.new_service, Services.serviceData.
  rewrite !dom_insert_L, dom_empty_L.
  apply set_eq. intros k. rewrite !elem_of_union, !elem_of_singleton.
  rewrite elem_of_empty. tauto.
Qed.

(** X16: a validated submit while no service is being edited issues exactly
    one write: [addDoc] on [services] with exactly the six fields title,
    category, price, duration, isActive and createdAt, where [isActive] is
    true and [createdAt] is the current server time: a service is always
    created active.  When the write is acknowledged, the table is read again,
    the modal is closed and the form is blank. *)
Theorem create_writes_active_service (env : Env) (w : World) :
  truthy_opt (editingServiceId (state w)) = false →
  validate (formData (state w)) = None →
  let payload := new_service env (formData (state w)) in
  let w' := handleSubmit env w in
  writes (calls w') = writes (calls w) ++ [CallAddDoc "services" payload]
  ∧ dom payload
    = ({["title"; "category"; "price"; "duration"; "isActive"; "createdAt"]}
        : gset string)
  ∧ payload !! "isActive" = Some (VBool true)
  ∧ payload !! "createdAt" = Some (VTimestamp (timestamp_now env))
  ∧ isSubmitting (state w') = false
  ∧ (write env = Resolved tt →
       calls w' = calls w ++ [CallAddDoc "services" payload; CallGetDocs "services"]
       ∧ isModalOpen (state w') = false
       ∧ formData (state w') = mkFormData "" "" "" ""
       ∧ error (state w') = None).
Proof.
  intros He Hv payload w'.
  assert (Hcreate : w' = on_state (setIsSubmitting false)
                           (submit_create trim parseFloat parseInt env
                              (formData (state w)) (editingServiceId (state w))
                              (on_state (setIsSubmitting true)
                                 (on_state (setError None) w)))).
  { subst w'. unfold Services.handleSubmit. rewrite Hv.
    destruct (editingServiceId (state w)) as [sid|]; [|reflexivity].
    simpl in He. rewrite He. reflexivity. }
  clearbody w'. subst w'.
  split; [|split; [apply new_service_dom|split; [reflexivity|split; [reflexivity|]]]].
  - unfold submit_create, submit_catch. rewrite He.
    destruct (write env) as [[]|err]; simpl.
    + unfold fetchServices. destruct (refetch env); simpl;
        rewrite !writes_app; simpl; rewrite app_nil_r; reflexivity.
    + rewrite writes_app. reflexivity.
  - split.
    + unfold submit_create, submit_catch. rewrite He.
      destruct (write env) as [[]|err]; reflexivity.
    + intros Hw. unfold submit_create. rewrite Hw.
      unfold fetchServices. destruct (refetch env); simpl;
        rewrite <- app_assoc; repeat split; reflexivity.
Qed.

(** X17: a submit whose write is rejected keeps the modal open with the form
    as typed and the service being edited (so the user can submit again),
    shows the failure text of its mode, and ends with [isSubmitting] false.
    In edit mode it then reads the table again: the table becomes what the
    store returned, or, when that read faults as well, keeps the optimistic
    edit that was never stored. *)
Theorem failed_submit_keeps_the_form (env : Env) (w : World) (e : Fault) :
  validate (formData (state w)) = None →
  write env = Rejected e →
  let w' := handleSubmit env w in
  isModalOpen (state w') = isModalOpen (state w)
  ∧ formData (state w') = formData (state w)
  ∧ editingServiceId (state w') = editingServiceId (state w)
  ∧ isSubmitting (state w') = false
  ∧ toasts (state w') = toasts (state w)
  ∧ match editingServiceId (state w) with
    | Some sid =>
        if truthy sid then
          error (state w') = Some "Failed to update service. Please try again."
          ∧ services (state w')
            = match refetch env with
              | Resolved rows => rows
              | Rejected _ =>
                  List.map (λ sv, if String.eqb (id sv) sid
                                  then merge_row (formData (state w)) sv else sv)
                    (services (state w))
              end
        else
          error (state w') = Some "Failed to create service. Please try again."
          ∧ services (state w') = services (state w)
    | None =>
        error (state w') = Some "Failed to create service. Please try again."
        ∧ services (state w') = services (state w)
    end.
Proof.
  intros Hv Hw w'. subst w'. unfold Services.handleSubmit. rewrite Hv.
  destruct (editingServiceId (state w)) as [sid|] eqn:He.
  - destruct (truthy sid) eqn:Ht.
    + unfold submit_edit, submit_catch. rewrite Hw. simpl. rewrite Ht.
      unfold fetchServices. destruct (refetch env); simpl; repeat split; auto.
    + unfold submit_create, submit_catch. rewrite Hw. simpl. rewrite Ht.
      simpl. repeat split; auto.
  - unfold submit_create, submit_catch. rewrite Hw. simpl. repeat split; auto.
Qed.

End Builtins.

Lemma create_writes_active_service_witness :
  let trim := λ s : string, s in
  let pf := λ _ : string, 350%float in
  let pi := λ _ : string, 60%float in
  let w := mkWorld (mkState [] false true false None None []
                      (mkFormData "Fan service" "" "350" "60")) [] [] in
  let payload := new_service trim pf pi calm (formData (state w)) in
  let w' := handleSubmit trim pf pi calm w in
  writes (calls w') = writes (calls w) ++ [CallAddDoc "services" payload]
  ∧ dom payload
    = ({["title"; "category"; "price"; "duration"; "isActive"; "createdAt"]}
        : gset string)
  ∧ payload !! "isActive" = Some (VBool true)
  ∧ payload !! "createdAt" = Some (VTimestamp (timestamp_now calm))
  ∧ isSubmitting (state w') = false
  ∧ (write calm = Resolved tt →
       calls w' = calls w ++ [CallAddDoc "services" payload; CallGetDocs "services"]
       ∧ isModalOpen (state w') = false
       ∧ formData (state w') = mkFormData "" "" "" ""
       ∧ error (state w') = None).
Proof.
  apply (create_writes_active_service (λ s, s) (λ _, 350%float) (λ _, 60%float)
           calm
           (mkWorld (mkState [] false true false None None []
                       (mkFormData "Fan service" "" "350" "60")) [] [])).
  - reflexivity.
  - vm_compute. reflexivity.
Defined.

Lemma failed_submit_keeps_the_form_witness :
  let trim := λ s : string, s in
  let pf := λ _ : string, 350%float in
  let pi := λ _ : string, 60%float in
  let env := mkEnv 5 6 (Rejected (mkFault None None)) (Rejected (mkFault None None)) in
  let w := editing_world in
  let w' := handleSubmit trim pf pi env w in
  isModalOpen (state w') = isModalOpen (state w)
  ∧ formData (state w') = formData (state w)
  ∧ editingServiceId (state w') = editingServiceId (state w)
  ∧ isSubmitting (state w') = false
  ∧ toasts (state w') = toasts (state w)
  ∧ match editingServiceId (state w) with
    | Some sid =>
        if truthy sid then
          error (state w') = Some "Failed to update service. Please try again."
          ∧ services (state w')
            = match refetch env with
              | Resolved rows => rows
              | Rejected _ =>
                  List.map (λ sv, if String.eqb (id sv) sid
                                  then merge_row trim pf pi (formData (state w)) sv
                                  else sv)
                    (services (state w))
              end
        else
          error (state w') = Some "Failed to create service. Please try again."
          ∧ services (state w') = services (state w)
    | None =>
        error (state w') = Some "Failed to create service. Please try again."
        ∧ services (state w') = services (state w)
    end.
Proof.
  apply (failed_submit_keeps_the_form (λ s, s) (λ _, 350%float) (λ _, 60%float)
           (mkEnv 5 6 (Rejected (mkFault None None)) (Rejected (mkFault None None)))
           editing_world (mkFault None None)).
  - vm_compute. reflexivity.
  - reflexivity.
Defined.

End ServicesSubmitFacts.

(** ** Bookings list and dashboard: joins by lookup *)

Module ListsFacts.
Import Lists.

Section FoldInsert.

Context {V : Type} (g : string * Doc → V).

Lemma fold_insert_notin (l : Docs) (m : gmap string V) (k : string) :
  k ∉ List.map fst l →
  fold_left (λ m d, <[d.1 := g d]> m) l m !! k = m !! k.
Proof.
  revert m. induction l as [|d l IH]; intros m Hk; [reflexivity|].
  simpl in *. rewrite not_elem_of_cons in Hk. destruct Hk as [Hne Hk].
  rewrite (IH _ Hk). apply lookup_insert_ne. congruence.
Qed.

Lemma fold_insert_in (l : Docs) (m : gmap string V) (k : string) (v : Doc) :
  NoDup (List.map fst l) → (k, v) ∈ l →
  fold_left (λ m d, <[d.1 := g d]> m) l m !! k = Some (g (k, v)).
Proof.
  revert m. induction l as [|d l IH]; intros m Hnd Hin; [inversion Hin|].
  simpl in *. apply NoDup_cons in Hnd as [Hd Hnd].
  apply elem_of_cons in Hin as [<- | Hin].
  - rewrite (fold_insert_notin l _ k Hd). apply lookup_insert_eq.
  - apply IH; assumption.
Qed.

End FoldInsert.

Lemma map_lookup {A B : Type} (f : A → B) (l : list A) (i : nat) (x : A) :
  l !! i = Some x → List.map f l !! i = Some (f x).
Proof.
  revert i. induction l as [|a l IH]; intros [|i] Hi; simpl in *;
    try discriminate.
  - injection Hi as ->. reflexivity.
  - apply IH. exact Hi.
Qed.

Lemma to_booking_unknown (services : Docs) (d : string * Doc) :
  (∀ k, d.2 !! "serviceId" = Some (VStr k) → k ∉ List.map fst services) →
  serviceName (to_booking (servicesMap services) d) = VStr "Unknown Service".
Proof.
  intros Hk. unfold to_booking, servicesMap, get_by. simpl.
  destruct (d.2 !! "serviceId") as [[| k | | | |]|]; try reflexivity.
  rewrite fold_insert_notin by (apply Hk; reflexivity).
  rewrite lookup_empty. reflexivity.
Qed.

Lemma to_recent_unknown (services : Docs) (tm : gmap string (option FieldValue))
    (d : string * Doc) :
  (∀ k, d.2 !! "serviceId" = Some (VStr k) → k ∉ List.map fst services) →
  r_serviceName (to_recent (namesMap services) tm d) = VStr "Unknown Service".
Proof.
  intros Hk. unfold to_recent, namesMap, get_by. simpl.
  destruct (d.2 !! "serviceId") as [[| k | | | |]|]; try reflexivity.
  rewrite fold_insert_notin by (apply Hk; reflexivity).
  rewrite lookup_empty. reflexivity.
Qed.

(** X18: for a booking document whose [serviceId] is missing, is not a
    string, or names no document of the services collection, the row that
    [fetchBookings] stores in [bookings] at the document's position, and the
    row that [fetchRecentBookings] stores in [recentBookings] at its position,
    carry the document's id and the service name "Unknown Service". *)
Theorem unknown_service_fallback
    (services technicians listed recent : Docs) (i j : nat) (d : string * Doc)
    (s : BookingsState) (s' : RecentState) :
  (∀ k, d.2 !! "serviceId" = Some (VStr k) → k ∉ List.map fst services) →
  (listed !! i = Some d →
     ∃ r, bookings (fetchBookings (Resolved services) (Resolved listed) s) !! i
          = Some r
          ∧ id r = d.1 ∧ serviceName r = VStr "Unknown Service")
  ∧ (recent !! j = Some d →
     ∃ r, recentBookings
            (fetchRecentBookings (Resolved services) (Resolved technicians)
               (Resolved recent) s') !! j
          = Some r
          ∧ r_id r = d.1 ∧ r_serviceName r = VStr "Unknown Service").
Proof.
  intros Hk. split; intros Hd.
  - exists (to_booking (servicesMap services) d).
    split; [|split; [reflexivity | apply to_booking_unknown, Hk]].
    unfold fetchBookings. simpl. apply map_lookup, Hd.
  - exists (to_recent (namesMap services) (namesMap technicians) d).
    split; [|split; [reflexivity | apply to_recent_unknown, Hk]].
    unfold fetchRecentBookings. simpl. apply map_lookup, Hd.
Qed.

Lemma unknown_service_fallback_witness :
  (∃ r, bookings (fetchBookings (Resolved [("s9", wiring_doc)])
                    (Resolved [("b1", booked)]) bookings_initial) !! 0%nat
        = Some r
        ∧ id r = "b1" ∧ serviceName r = VStr "Unknown Service")
  ∧ (∃ r, recentBookings
            (fetchRecentBookings (Resolved [("s9", wiring_doc)])
               (Resolved [("t1", ravi_doc)]) (Resolved [("b1", booked)])
               recent_initial) !! 0%nat
          = Some r
          ∧ r_id r = "b1" ∧ r_serviceName r = VStr "Unknown Service").
Proof.
  assert (Hk : ∀ k, booked !! "serviceId" = Some (VStr k) →
                    k ∉ List.map fst [("s9", wiring_doc)]).
  { intros k Hk. injection Hk as <-. intros Hin.
    apply list_elem_of_singleton in Hin. discriminate. }
  destruct (unknown_service_fallback [("s9", wiring_doc)] [("t1", ravi_doc)]
              [("b1", booked)] [("b1", booked)] 0 0 ("b1", booked)
              bookings_initial recent_initial Hk) as [H1 H2].
  split; [exact (H1 eq_refl) | exact (H2 eq_refl)].
Defined.

Lemma create_writes (trim : string → string) (pf pi : string → float)
    (env : Services.Env) (w : Services.World) :
  truthy_opt (Services.editingServiceId (Services.state w)) = false →
  Services.validate trim pf pi (Services.formData (Services.state w)) = None →
  writes (Services.calls (Services.handleSubmit trim pf pi env w))
  = writes (Services.calls w)
    ++ [CallAddDoc "services"
          (Services.new_service trim pf pi env (Services.formData (Services.state w)))].
Proof.
  intros He Hv.
  assert (E : Services.handleSubmit trim pf pi env w
              = Services.on_state (Services.setIsSubmitting false)
                  (Services.submit_create trim pf pi env
                     (Services.formData (Services.state w))
                     (Services.editingServiceId (Services.state w))
                     (Services.on_state (Services.setIsSubmitting true)
                        (Services.on_state (Services.setError None) w)))).
  { unfold Services.handleSubmit. rewrite Hv.
    destruct (Services.editingServiceId (Services.state w)) as [sid|];
      [|reflexivity].
    simpl in He. rewrite He. reflexivity. }
  rewrite E. unfold Services.submit_create, Services.submit_catch. rewrite He.
  destruct (Services.write env) as [[]|err]; simpl.
  - unfold Services.fetchServices. destruct (Services.refetch env); simpl;
      rewrite !writes_app; simpl; rewrite app_nil_r; reflexivity.
  - rewrite writes_app. reflexivity.
Qed.

(** X19: the two list pages resolve the name of a service the services form
    has created differently.  A validated submit in create mode writes, by
    [addDoc] on [services], a document with a non-empty [title] (the trimmed
    title of the form) and no [name].  For a stored service document (of
    unique id) that agrees with it on these two fields, and a booking document
    that names it, the row [fetchBookings] stores carries that title as the
    service name, while the row [fetchRecentBookings] stores, which is
    resolved from [name] only, carries "Unknown Service". *)
Theorem title_only_service_is_unknown_on_dashboard
    (trim : string → string) (pf pi : string → float)
    (env : Services.Env) (w : Services.World)
    (services technicians listed recent : Docs) (sid : string) (sd : Doc)
    (i j : nat) (d : string * Doc) (s : BookingsState) (s' : RecentState) :
  truthy_opt (Services.editingServiceId (Services.state w)) = false →
  Services.validate trim pf pi (Services.formData (Services.state w)) = None →
  NoDup (List.map fst services) →
  (sid, sd) ∈ services →
  sd !! "title"
  = Services.new_service trim pf pi env (Services.formData (Services.state w))
      !! "title" →
  sd !! "name"
  = Services.new_service trim pf pi env (Services.formData (Services.state w))
      !! "name" →
  d.2 !! "serviceId" = Some (VStr sid) →
  let payload :=
    Services.new_service trim pf pi env (Services.formData (Services.state w)) in
  let t := trim (Services.form_title (Services.formData (Services.state w))) in
  writes (Services.calls (Services.handleSubmit trim pf pi env w))
  = writes (Services.calls w) ++ [CallAddDoc "services" payload]
  ∧ payload !! "title" = Some (VStr t) ∧ t ≠ "" ∧ payload !! "name" = None
  ∧ (listed !! i = Some d →
     ∃ r, bookings (fetchBookings (Resolved services) (Resolved listed) s) !! i
          = Some r
          ∧ id r = d.1 ∧ serviceName r = VStr t)
  ∧ (recent !! j = Some d →
     ∃ r, recentBookings
            (fetchRecentBookings (Resolved services) (Resolved technicians)
               (Resolved recent) s') !! j
          = Some r
          ∧ r_id r = d.1 ∧ r_serviceName r = VStr "Unknown Service").
Proof.
  intros He Hv Hnd Hin Ht Hn Hd payload t.
  assert (Hpt : payload !! "title" = Some (VStr t)) by reflexivity.
  assert (Hpn : payload !! "name" = None) by reflexivity.
  assert (Htr : truthy t = true).
  { unfold Services.validate in Hv. fold t in Hv.
    destruct (truthy t); [reflexivity | discriminate Hv]. }
  fold payload in Ht, Hn. rewrite Hpt in Ht. rewrite Hpn in Hn.
  split; [apply create_writes; assumption|].
  split; [exact Hpt|]. split; [apply truthy_true; exact Htr|].
  split; [exact Hpn|]. split; intros Hl.
  - exists (to_booking (servicesMap services) d).
    split; [unfold fetchBookings; simpl; apply map_lookup, Hl|].
    split; [reflexivity|].
    unfold to_booking, servicesMap, get_by. simpl. rewrite Hd.
    rewrite (fold_insert_in _ services ∅ sid sd Hnd Hin). simpl.
    rewrite Ht. unfold js_or. simpl. rewrite Htr. simpl. rewrite Htr.
    reflexivity.
  - exists (to_recent (namesMap services) (namesMap technicians) d).
    split; [unfold fetchRecentBookings; simpl; apply map_lookup, Hl|].
    split; [reflexivity|].
    unfold to_recent, namesMap, get_by. simpl. rewrite Hd.
    rewrite (fold_insert_in _ services ∅ sid sd Hnd Hin). simpl.
    rewrite Hn. reflexivity.
Qed.

Lemma title_only_service_is_unknown_on_dashboard_witness :
  let trim := λ s : string, s in
  let pf := λ _ : string, 350%float in
  let pi := λ _ : string, 60%float in
  let w := Services.mkWorld
             (Services.mkState [] false true false None None []
                (Services.mkFormData "Fan service" "" "350" "60")) [] [] in
  let payload := Services.new_service trim pf pi Services.calm
                   (Services.formData (Services.state w)) in
  writes (Services.calls (Services.handleSubmit trim pf pi Services.calm w))
  = [CallAddDoc "services" payload]
  ∧ (∃ r, bookings (fetchBookings (Resolved [("s1", payload)])
                      (Resolved [("b1", booked)]) bookings_initial) !! 0%nat
          = Some r
          ∧ id r = "b1" ∧ serviceName r = VStr "Fan service")
  ∧ (∃ r, recentBookings
            (fetchRecentBookings (Resolved [("s1", payload)])
               (Resolved [("t1", ravi_doc)]) (Resolved [("b1", booked)])
               recent_initial) !! 0%nat
          = Some r
          ∧ r_id r = "b1" ∧ r_serviceName r = VStr "Unknown Service").
Proof.
  intros trim pf pi w payload.
  assert (Hv : Services.validate trim pf pi (Services.formData (Services.state w))
               = None) by (vm_compute; reflexivity).
  assert (Hnd : NoDup (List.map fst [("s1", payload)])).
  { repeat constructor. intros Hin. inversion Hin. }
  assert (Hin : ("s1", payload) ∈ [("s1", payload)]).
  { apply list_elem_of_singleton. reflexivity. }
  destruct (title_only_service_is_unknown_on_dashboard trim pf pi Services.calm w
              [("s1", payload)] [("t1", ravi_doc)] [("b1", booked)]
              [("b1", booked)] "s1" payload 0 0 ("b1", booked)
              bookings_initial recent_initial
              eq_refl Hv Hnd Hin eq_refl eq_refl eq_refl)
    as (Hw & _ & _ & _ & H1 & H2).
  split; [exact Hw|]. split; [exact (H1 eq_refl) | exact (H2 eq_refl)].
Defined.

(** X20: the technician fields of the rows [fetchRecentBookings] stores in
    [recentBookings].  The row at the position of a booking document carries
    the document's id; when the document's [technicianId] is missing, null or
    empty, the row has technician name "Unassigned" and a null technician id;
    when it is set but names no document of the technicians collection, the
    row has technician name "Unknown Technician". *)
Theorem technician_name_fallbacks
    (services technicians recent : Docs) (j : nat) (d : string * Doc)
    (s' : RecentState) :
  recent !! j = Some d →
  ∃ r, recentBookings
         (fetchRecentBookings (Resolved services) (Resolved technicians)
            (Resolved recent) s') !! j
       = Some r
       ∧ r_id r = d.1
       ∧ (is_truthy (d.2 !! "technicianId") = false →
            r_technicianName r = VStr "Unassigned" ∧ r_technicianId r = VNull)
       ∧ (is_truthy (d.2 !! "technicianId") = true →
            (∀ k, d.2 !! "technicianId" = Some (VStr k) →
                  k ∉ List.map fst technicians) →
            r_technicianName r = VStr "Unknown Technician").
Proof.
  intros Hd. exists (to_recent (namesMap services) (namesMap technicians) d).
  split; [unfold fetchRecentBookings; simpl; apply map_lookup, Hd|].
  split; [reflexivity|].
  unfold to_recent, namesMap, get_by, is_truthy, js_or. simpl. split.
  - intros Hf. rewrite Hf. split; [reflexivity|].
    destruct (d.2 !! "technicianId") as [v|]; [|reflexivity].
    rewrite Hf. reflexivity.
  - intros Ht Hk. rewrite Ht.
    destruct (d.2 !! "technicianId") as [[| k | | | |]|]; try reflexivity.
    rewrite fold_insert_notin by (apply Hk; reflexivity).
    rewrite lookup_empty. reflexivity.
Qed.

Lemma technician_name_fallbacks_witness :
  ∃ r, recentBookings
         (fetchRecentBookings (Resolved [("s1", wiring_doc)])
            (Resolved [("t1", ravi_doc)])
            (Resolved [("b1", booked); ("b2", booked_for "t9")])
            recent_initial) !! 1%nat
       = Some r
       ∧ r_id r = "b2"
       ∧ r_technicianName r = VStr "Unknown Technician".
Proof.
  destruct (technician_name_fallbacks [("s1", wiring_doc)] [("t1", ravi_doc)]
              [("b1", booked); ("b2", booked_for "t9")] 1
              ("b2", booked_for "t9") recent_initial eq_refl)
    as (r & Hr & Hid & _ & Hu).
  exists r. split; [exact Hr|]. split; [exact Hid|].
  apply Hu; [reflexivity|].
  intros k Hk. injection Hk as <-. intros Hin.
  apply list_elem_of_singleton in Hin. discriminate.
Defined.

(** X21: the bookings page has no error state: when either of its two reads
    faults, the page it leaves from its first render is the page it shows for
    an empty bookings collection (the "No bookings found" row), whatever the
    services collection holds. *)
Theorem failed_bookings_load_looks_empty
    (services bookingDocs : Settled Docs) (e : Fault) (sv : Docs) :
  all2 services bookingDocs = Rejected e →
  fetchBookings services bookingDocs bookings_initial
  = fetchBookings (Resolved sv) (Resolved []) bookings_initial.
Proof.
  intros Hr. unfold fetchBookings. rewrite Hr. reflexivity.
Qed.

Lemma failed_bookings_load_looks_empty_witness :
  fetchBookings (Resolved [("s1", wiring_doc)]) (Rejected (mkFault None None))
    bookings_initial
  = fetchBookings (Resolved []) (Resolved []) bookings_initial.
Proof.
  apply (failed_bookings_load_looks_empty (Resolved [("s1", wiring_doc)])
           (Rejected (mkFault None None)) (mkFault None None) []).
  reflexivity.
Defined.

End ListsFacts.
